(* ===================================================================== *)
(*  slang: RSExportElement (slang_rs_export_element.cpp)                  *)
(*                                                                       *)
(*  A shallow embedding of the element catalogue (Init, GetElementInfo)  *)
(*  and of the two resolution entry points (Create, CreateFromDecl),     *)
(*  followed by the properties of the specification that concern them.   *)
(*  The assembler driver that shares the source file (WriteOutputFile,   *)
(*  main) is embedded in module LLVMAs, with properties of its own.      *)
(* ===================================================================== *)

From Stdlib Require Import Ascii.
From stdpp Require Import gmap strings list fin_maps.

Local Open Scope string_scope.
Local Open Scope list_scope.

(* --------------------------------------------------------------------- *)
(** * clang type nodes                                                    *)
(* --------------------------------------------------------------------- *)

(** [clang::Type::TypeClass]: the tags the code switches on, and two further
    tags standing for every class it sends to [default]. *)
Inductive TypeClass : Type :=
  | Builtin
  | Pointer
  | ExtVector
  | Typedef
  | RecordClass
  | ConstantArrayClass.

Global Instance TypeClass_eq_dec : EqDecision TypeClass.
Proof. solve_decision. Defined.

(** A [clang::Type] node.  clang uniques type nodes, so two pointers to type
    nodes are equal exactly when the nodes are the same term; the pointer
    comparison [T != CT] of the source is therefore comparison of terms. *)
Inductive ClangType : Type :=
  | BuiltinType (kind : string)
  | PointerType (pointee : ClangType)
  | ExtVectorType (element : ClangType) (num : N)
  | TypedefType (name : string) (underlying : ClangType)
  | RecordType (name : string)
  | ConstantArrayType (element : ClangType) (size : N).

Global Instance ClangType_eq_dec : EqDecision ClangType.
Proof. solve_decision. Defined.

(** [T->getTypeClass()] *)
Definition getTypeClass (T : ClangType) : TypeClass :=
  match T with
  | BuiltinType _ => Builtin
  | PointerType _ => Pointer
  | ExtVectorType _ _ => ExtVector
  | TypedefType _ _ => Typedef
  | RecordType _ => RecordClass
  | ConstantArrayType _ _ => ConstantArrayClass
  end.

(** [T->getTypeClassName()] *)
Definition getTypeClassName (T : ClangType) : string :=
  match getTypeClass T with
  | Builtin => "Builtin"
  | Pointer => "Pointer"
  | ExtVector => "ExtVector"
  | Typedef => "Typedef"
  | RecordClass => "Record"
  | ConstantArrayClass => "ConstantArray"
  end.

(** Modelled from the spec: [GET_CANONICAL_TYPE] (a macro of
    slang_rs_export_type.h, which is not part of the sources at hand) yields
    the canonical type, the type with all aliasing removed, at every depth. *)
Fixpoint GET_CANONICAL_TYPE (T : ClangType) : ClangType :=
  match T with
  | BuiltinType k => BuiltinType k
  | PointerType P => PointerType (GET_CANONICAL_TYPE P)
  | ExtVectorType E n => ExtVectorType (GET_CANONICAL_TYPE E) n
  | TypedefType _ U => GET_CANONICAL_TYPE U
  | RecordType n => RecordType n
  | ConstantArrayType E n => ConstantArrayType (GET_CANONICAL_TYPE E) n
  end.

(** A [clang::DeclaratorDecl], reduced to what the resolver reads of it. *)
Record DeclaratorDecl : Type := mkDecl {
  decl_name : string;
  decl_type : ClangType
}.

(** Modelled from the spec: [RSExportType::GetTypeOfDecl] (not part of the
    sources at hand) hands out the type node of the declared variable. *)
Definition GetTypeOfDecl (DD : DeclaratorDecl) : ClangType := decl_type DD.

(* --------------------------------------------------------------------- *)
(** * Element descriptors and export types                                *)
(* --------------------------------------------------------------------- *)

(** [RSExportPrimitiveType::DataType]: the enumerators come from a generated
    table that is not at hand; an enumerator is represented by its value. *)
Definition DataType : Type := Z.

(** [RSExportElement::ElementInfo] *)
Record ElementInfo : Type := mkElementInfo {
  type : DataType;
  normalized : bool;
  vsize : N
}.

Global Instance ElementInfo_eq_dec : EqDecision ElementInfo.
Proof. solve_decision. Defined.

(** What the resolver reads of an [RSExportPrimitiveType]. *)
Record RSExportPrimitiveType : Type := mkPrimitive {
  ept_name : string;
  ept_getType : DataType;
  ept_normalized : bool
}.

(** What the resolver reads of an [RSExportVectorType]. *)
Record RSExportVectorType : Type := mkVector {
  evt_name : string;
  evt_getType : DataType;
  evt_normalized : bool;
  evt_getNumElement : N
}.

(** [RSExportType]: the two classes built here, and the opaque rest that only
    the generic builder produces. *)
Inductive RSExportType : Type :=
  | ExportPrimitive (EPT : RSExportPrimitiveType)
  | ExportVector (EVT : RSExportVectorType)
  | ExportOther (description : string).

(* --------------------------------------------------------------------- *)
(** * Program state and the computation monad                             *)
(* --------------------------------------------------------------------- *)

(** A call that leaves this translation unit, with its arguments. *)
Inductive ExternalCall : Type :=
  | CallNormalizeType (T : ClangType)
  | CallExportTypeCreate (T : ClangType)
  | CallPrimitiveTypeCreate (T : ClangType) (TypeName : string) (Normalized : bool)
  | CallVectorTypeCreate (T : ClangType) (TypeName : string) (Normalized : bool).

(** The two static members of [RSExportElement], the text written to
    [stderr], and the calls made to the collaborators, oldest first. *)
Record State : Type := mkState {
  Initialized : bool;
  ElementInfoMap : gmap string ElementInfo;
  stderr : list string;
  calls : list ExternalCall
}.

(** The values of the static members before any code has run. *)
Definition initial_state : State := mkState false ∅ [] [].

(** A computation either returns, or the process is aborted by a failed
    assertion; both leave a state behind. *)
Inductive Outcome (A : Type) : Type :=
  | Returns (a : A) (st : State)
  | Aborts (assertion : string) (st : State).
Arguments Returns {A} a st.
Arguments Aborts {A} assertion st.

Definition M (A : Type) : Type := State → Outcome A.

Global Instance M_ret : MRet M := λ A a st, Returns a st.
Global Instance M_bind : MBind M := λ A B f m st,
  match m st with
  | Returns a st' => f a st'
  | Aborts msg st' => Aborts msg st'
  end.

Definition get_state : M State := λ st, Returns st st.
Definition put_state (st : State) : M unit := λ _, Returns tt st.

(** The state an outcome leaves behind. *)
Definition final_state {A} (o : Outcome A) : State :=
  match o with
  | Returns _ st => st
  | Aborts _ st => st
  end.

(** Modelled from the spec: [slangAssert] (slang_assert.h is not part of the
    sources at hand).  A violated assertion is the fatal signal the
    specification calls CatalogueInconsistency: the process is aborted. *)
Definition slangAssert (cond : bool) (text : string) : M unit :=
  λ st, if cond then Returns tt st else Aborts text st.

(** The fatal signal, as a predicate on outcomes. *)
Definition CatalogueInconsistency {A} (o : Outcome A) : Prop :=
  ∃ text st, o = Aborts text st.

(** The recoverable failure: the function returns [NULL]. *)
Definition NotExportable {A} (o : Outcome (option A)) : Prop :=
  ∃ st, o = Returns None st.

(** The character written for [\n]. *)
Definition newline : string := String (Ascii.ascii_of_nat 10) EmptyString.

(** The state with one more line on [stderr]. *)
Definition add_stderr (text : string) (st : State) : State :=
  mkState (Initialized st) (ElementInfoMap st) (stderr st ++ [text]) (calls st).

(** The state with one more call to a collaborator on record. *)
Definition add_call (c : ExternalCall) (st : State) : State :=
  mkState (Initialized st) (ElementInfoMap st) (stderr st) (calls st ++ [c]).

(** [fprintf(stderr, ...)] with the text already formatted. *)
Definition fprintf_stderr (text : string) : M unit :=
  λ st, Returns tt (add_stderr text st).

(** Records that a collaborator has been called. *)
Definition record_call (c : ExternalCall) : M unit :=
  λ st, Returns tt (add_call c st).

(* --------------------------------------------------------------------- *)
(** * The element catalogue                                               *)
(* --------------------------------------------------------------------- *)

(** One [ENUM_RS_DATA_ELEMENT(_name, _dt, _norm, _vsize)] line. *)
Definition ElementEntry : Type := (string * DataType * bool * N)%type.

Definition entry_name (e : ElementEntry) : string := e.1.1.1.
Definition entry_info (e : ElementEntry) : ElementInfo :=
  mkElementInfo e.1.1.2 e.1.2 e.2.

(** [ElementInfoMap.insert(...)]: llvm::StringMap does not replace the value
    of a key that is already there. *)
Definition StringMap_insert (Name : string) (EI : ElementInfo)
    (m : gmap string ElementInfo) : gmap string ElementInfo :=
  match m !! Name with
  | Some _ => m
  | None => <[Name := EI]> m
  end.

(** The expansion of one table line inside [Init]. *)
Definition ENUM_RS_DATA_ELEMENT (e : ElementEntry)
    (m : gmap string ElementInfo) : gmap string ElementInfo :=
  StringMap_insert (entry_name e) (entry_info e) m.

(** The expansion of the whole table, first line first. *)
Definition expand_table (table : list ElementEntry)
    (m : gmap string ElementInfo) : gmap string ElementInfo :=
  foldl (λ acc e, ENUM_RS_DATA_ELEMENT e acc) m table.

Section Catalogue.

(** The lines of RSDataElementEnums.inc, a generated file that is not part
    of the sources at hand. *)
Variable RSDataElementEnums : list ElementEntry.

(** [RSExportElement::Init] *)
Definition Init : M unit :=
  st ← get_state;
  if negb (Initialized st) then
    put_state (mkState true
                       (expand_table RSDataElementEnums (ElementInfoMap st))
                       (stderr st) (calls st))
  else mret tt.

(** [if (!Initialized) Init();], the guard that opens [Create] and
    [GetElementInfo]. *)
Definition Init_unless_Initialized : M unit :=
  st ← get_state;
  if negb (Initialized st) then Init else mret tt.

(** [RSExportElement::GetElementInfo] *)
Definition GetElementInfo (Name : string) : M (option ElementInfo) :=
  Init_unless_Initialized;;
  st ← get_state;
  mret (ElementInfoMap st !! Name).

End Catalogue.

(* --------------------------------------------------------------------- *)
(** * The resolver                                                        *)
(* --------------------------------------------------------------------- *)

Section Resolver.

Variable RSDataElementEnums : list ElementEntry.

(** Modelled from the spec: [RSExportType::NormalizeType] (not part of the
    sources at hand) canonicalizes the type node it is given and computes
    its canonical name, or fails on a type that uses unsupported language
    features.  On success the caller goes on with the node and the name it
    hands back. *)
Variable NormalizeType : ClangType → option (ClangType * string).

(** Modelled from the spec: [RSExportType::Create] (not part of the sources
    at hand), the generic export-type builder; absent for a type that cannot
    be exported. *)
Variable RSExportType_Create : ClangType → option RSExportType.

(** Modelled from the spec: [RSExportPrimitiveType::Create] (not part of the
    sources at hand) builds a primitive export type carrying the canonical
    name and the normalized flag.  The source reads the result without a
    null test, so the builder is taken to deliver an object. *)
Variable RSExportPrimitiveType_Create :
  ClangType → string → bool → RSExportPrimitiveType.

(** Modelled from the spec: [RSExportVectorType::Create] (not part of the
    sources at hand) builds a vector export type from a vector type node. *)
Variable RSExportVectorType_Create :
  ClangType → string → bool → RSExportVectorType.

(** The calls to the collaborators: each is recorded, then answered. *)
Definition call_NormalizeType (T : ClangType)
    : M (option (ClangType * string)) :=
  record_call (CallNormalizeType T);;
  mret (NormalizeType T).

Definition call_RSExportType_Create (T : ClangType)
    : M (option RSExportType) :=
  record_call (CallExportTypeCreate T);;
  mret (RSExportType_Create T).

Definition call_RSExportPrimitiveType_Create
    (T : ClangType) (TypeName : string) (Normalized : bool)
    : M RSExportPrimitiveType :=
  record_call (CallPrimitiveTypeCreate T TypeName Normalized);;
  mret (RSExportPrimitiveType_Create T TypeName Normalized).

Definition call_RSExportVectorType_Create
    (T : ClangType) (TypeName : string) (Normalized : bool)
    : M RSExportVectorType :=
  record_call (CallVectorTypeCreate T TypeName Normalized);;
  mret (RSExportVectorType_Create T TypeName Normalized).

(** The [switch] of [RSExportElement::Create], entered with the node and
    the name that [NormalizeType] handed back. *)
Definition Create_switch (T : ClangType) (TypeName : string)
    (EI : ElementInfo) : M (option RSExportType) :=
  match getTypeClass T with
  | Builtin | Pointer =>
      slangAssert (bool_decide (vsize EI = 1%N))
        "Element not a primitive class (please check your macro)";;
      EPT ← call_RSExportPrimitiveType_Create T TypeName (normalized EI);
      slangAssert (bool_decide (type EI = ept_getType EPT))
        "Element has unexpected type";;
      mret (Some (ExportPrimitive EPT))
  | ExtVector =>
      slangAssert (bool_decide (1 < vsize EI)%N)
        "Element not a vector class (please check your macro)";;
      EVT ← call_RSExportVectorType_Create
              (GET_CANONICAL_TYPE T) TypeName (normalized EI);
      slangAssert (bool_decide (type EI = evt_getType EVT))
        "Element has unexpected type";;
      slangAssert (bool_decide (vsize EI = evt_getNumElement EVT))
        "Element has unexpected size of vector";;
      mret (Some (ExportVector EVT))
  | _ =>
      fprintf_stderr ("RSExportElement::Create : type '"
                      +:+ getTypeClassName T
                      +:+ "' is not exportable" +:+ newline);;
      mret None
  end.

(** [RSExportElement::Create]; [EI] is a pointer and may be null. *)
Definition Create (T : ClangType) (EI : option ElementInfo)
    : M (option RSExportType) :=
  Init_unless_Initialized RSDataElementEnums;;
  slangAssert (bool_decide (is_Some EI)) "Element info not found";;
  match EI with
  | None => mret None
  | Some EI =>
      normalized_type ← call_NormalizeType T;
      match normalized_type with
      | None => mret None
      | Some (T, TypeName) => Create_switch T TypeName EI
      end
  end.

(** The [while (T != CT)] loop of [RSExportElement::CreateFromDecl]; it
    hands back the values of [T] and [EI] on leaving the loop.  Every turn
    of the loop that does not leave it replaces [T] by the type the alias
    stands for, which is the structural descent here. *)
Fixpoint typedef_chain (CT T : ClangType)
    : M (ClangType * option ElementInfo) :=
  if bool_decide (T ≠ CT) then
    match T with
    | TypedefType Name Underlying =>
        EI ← GetElementInfo RSDataElementEnums Name;
        match EI with
        | Some _ => mret (T, EI)
        | None => typedef_chain CT Underlying
        end
    | _ => mret (T, None)
    end
  else mret (T, None).

(** [RSExportElement::CreateFromDecl] *)
Definition CreateFromDecl (DD : DeclaratorDecl) : M (option RSExportType) :=
  let T := GetTypeOfDecl DD in
  let CT := GET_CANONICAL_TYPE T in
  if bool_decide (getTypeClass CT ≠ Builtin)
     && bool_decide (getTypeClass CT ≠ ExtVector)
  then call_RSExportType_Create T
  else
    '(T, EI) ← typedef_chain CT T;
    match EI with
    | None => call_RSExportType_Create T
    | Some _ => Create T EI
    end.

End Resolver.

(* --------------------------------------------------------------------- *)
(** * Notions used to state the properties                                *)
(* --------------------------------------------------------------------- *)

(** The first line of the table that carries the name, if any. *)
Fixpoint first_entry (table : list ElementEntry) (Name : string)
    : option ElementInfo :=
  match table with
  | [] => None
  | e :: rest =>
      if bool_decide (entry_name e = Name) then Some (entry_info e)
      else first_entry rest Name
  end.

(** [Init] called [n] times in a row. *)
Fixpoint Init_times (table : list ElementEntry) (n : nat) : M unit :=
  match n with
  | O => mret tt
  | S n => Init table;; Init_times table n
  end.

(** The states the program can be in, as far as the catalogue goes: the
    static members are untouched, or [Init] has run. *)
Definition catalogue_state (table : list ElementEntry) (st : State) : Prop :=
  (Initialized st = false ∧ ElementInfoMap st = ∅)
  ∨ (Initialized st = true ∧ ElementInfoMap st = expand_table table ∅).

(** The state after the catalogue has been built. *)
Definition initialized (table : list ElementEntry) (st : State) : State :=
  mkState true (expand_table table ∅) (stderr st) (calls st).

(** The state [Init] leaves behind, whatever the state it starts in. *)
Definition after_Init (table : list ElementEntry) (st : State) : State :=
  if Initialized st then st
  else mkState true (expand_table table (ElementInfoMap st))
               (stderr st) (calls st).

(** The alias layers of a type, outermost first. *)
Fixpoint alias_layers (T : ClangType) : list ClangType :=
  match T with
  | TypedefType _ U => T :: alias_layers U
  | _ => []
  end.

(** The name an alias layer declares. *)
Definition alias_name (T : ClangType) : option string :=
  match T with
  | TypedefType Name _ => Some Name
  | _ => None
  end.

(** Whether the name an alias layer declares is a line of the table. *)
Definition registered (table : list ElementEntry) (L : ClangType) : bool :=
  match alias_name L with
  | Some Name => bool_decide (is_Some (first_entry table Name))
  | None => false
  end.

(** Whether none of the given alias layers declares a name of the table. *)
Definition none_registered (table : list ElementEntry)
    (layers : list ClangType) : bool :=
  forallb (λ L, negb (registered table L)) layers.

(** The node under all the alias layers of a type. *)
Fixpoint strip_aliases (T : ClangType) : ClangType :=
  match T with
  | TypedefType _ U => strip_aliases U
  | _ => T
  end.

(** The state the alias walk leaves behind: it consults the catalogue, and
    so builds it, exactly when the declared type is an alias. *)
Definition after_walk (table : list ElementEntry) (T : ClangType)
    (st : State) : State :=
  match T with
  | TypedefType _ _ => initialized table st
  | _ => st
  end.

(* --------------------------------------------------------------------- *)
(** * A small catalogue and small collaborators, for concrete runs         *)
(* --------------------------------------------------------------------- *)

Module Sample.

Definition DataTypeUnsigned8 : DataType := 8%Z.
Definition DataTypeFloat32 : DataType := 2%Z.
Definition DataTypeUnknown : DataType := (-1)%Z.

(** Two lines in the manner of RSDataElementEnums.inc. *)
Definition table : list ElementEntry :=
  [ ("rs_uchar", DataTypeUnsigned8, true, 1%N);
    ("rs_uchar4", DataTypeUnsigned8, true, 4%N) ].

Definition uchar : ClangType := BuiltinType "unsigned char".
Definition float : ClangType := BuiltinType "float".
Definition uchar4 : ClangType := ExtVectorType uchar 4.

Definition scalar_kind (T : ClangType) : DataType :=
  match T with
  | BuiltinType "unsigned char" => DataTypeUnsigned8
  | BuiltinType "float" => DataTypeFloat32
  | _ => DataTypeUnknown
  end.

Fixpoint spelling (T : ClangType) : string :=
  match T with
  | BuiltinType k => k
  | PointerType P => spelling P +:+ "*"
  | ExtVectorType E _ => spelling E +:+ " vector"
  | TypedefType n _ => n
  | RecordType n => "struct " +:+ n
  | ConstantArrayType E _ => spelling E +:+ "[]"
  end.

(** Canonicalizes; [long double] stands for an unsupported feature. *)
Definition NormalizeType (T : ClangType) : option (ClangType * string) :=
  let CT := GET_CANONICAL_TYPE T in
  if bool_decide (CT = BuiltinType "long double") then None
  else Some (CT, spelling CT).

Definition RSExportType_Create (T : ClangType) : option RSExportType :=
  match NormalizeType T with
  | Some (_, n) => Some (ExportOther n)
  | None => None
  end.

Definition RSExportPrimitiveType_Create
    (T : ClangType) (TypeName : string) (Normalized : bool)
    : RSExportPrimitiveType :=
  mkPrimitive TypeName (scalar_kind T) Normalized.

Definition RSExportVectorType_Create
    (T : ClangType) (TypeName : string) (Normalized : bool)
    : RSExportVectorType :=
  match T with
  | ExtVectorType E n => mkVector TypeName (scalar_kind E) Normalized n
  | _ => mkVector TypeName DataTypeUnknown Normalized 0
  end.

Definition Create : ClangType → option ElementInfo → M (option RSExportType) :=
  Create table NormalizeType
         RSExportPrimitiveType_Create RSExportVectorType_Create.

Definition CreateFromDecl : DeclaratorDecl → M (option RSExportType) :=
  CreateFromDecl table NormalizeType RSExportType_Create
                 RSExportPrimitiveType_Create RSExportVectorType_Create.

Definition rs_uchar_info : ElementInfo := mkElementInfo DataTypeUnsigned8 true 1.
Definition rs_uchar4_info : ElementInfo := mkElementInfo DataTypeUnsigned8 true 4.

(** The catalogue once built from [table]. *)
Definition built : gmap string ElementInfo := expand_table table ∅.

End Sample.

(* --------------------------------------------------------------------- *)
(** * Further notions for the resolver                                    *)
(* --------------------------------------------------------------------- *)

(** What the caller sees of an outcome: the value returned, or the text of
    the assertion that stopped the process. *)
Definition observable {A} (o : Outcome A) : A + string :=
  match o with
  | Returns a _ => inl a
  | Aborts text _ => inr text
  end.

(** Two states with the same static members. *)
Definition same_catalogue (st st' : State) : Prop :=
  Initialized st' = Initialized st ∧ ElementInfoMap st' = ElementInfoMap st.

(** What an operation may do to the static members: nothing, or what [Init]
    does. *)
Definition as_is_or_after_Init (table : list ElementEntry)
    (st st' : State) : Prop :=
  same_catalogue st st' ∨ same_catalogue (after_Init table st) st'.

(** The values of [T] and [EI] with which the alias walk ends, read off the
    table: the outermost layer whose name is a line of the table with the
    descriptor of that line, or the node under all layers with none. *)
Fixpoint walk_result (table : list ElementEntry) (T : ClangType)
    : ClangType * option ElementInfo :=
  match T with
  | TypedefType Name U =>
      match first_entry table Name with
      | Some EI => (T, Some EI)
      | None => walk_result table U
      end
  | _ => (T, None)
  end.

(* --------------------------------------------------------------------- *)
(** * llvm-as: the assembler driver                                       *)
(* --------------------------------------------------------------------- *)

Module LLVMAs.

(** [enum BCVersion] *)
Inductive BCVersion : Type := BC29 | BC29Func | BC32 | BCHEAD.

Global Instance BCVersion_eq_dec : EqDecision BCVersion.
Proof. solve_decision. Defined.

(** The command-line options, after [cl::ParseCommandLineOptions]. *)
Record Options : Type := mkOptions {
  InputFilename : string;
  OutputFilename : string;
  Force : bool;
  DisableOutput : bool;
  DumpAsm : bool;
  DisableVerify : bool;
  BitcodeVersion : BCVersion
}.

(** What the driver does to the world, in order. *)
Inductive Event : Type :=
  | errs (text : string)
  | tool_output_file_opened (file : string)
  | CheckBitcodeOutputToConsole_called (file : string)
  | WriteBitcodeToFile (writer : BCVersion) (file : string)
  | keep (file : string).

(** How a function ends: it returns, the process is ended by [exit], or the
    behaviour is undefined (an index outside the string). *)
Inductive Completion (A : Type) : Type :=
  | Normal (a : A)
  | Exit (status : Z)
  | Undefined.
Arguments Normal {A} a.
Arguments Exit {A} status.
Arguments Undefined {A}.

(** The conversion of a length to [int]: 32 bits, two's complement. *)
Definition to_int (z : Z) : Z := ((z + 2 ^ 31) mod 2 ^ 32 - 2 ^ 31)%Z.

(** [IFN[i]] for a signed index: the character at [i], the terminating zero
    at [i = size], and no defined value outside. *)
Definition string_at (s : string) (i : Z) : option ascii :=
  if (i <? 0)%Z then None
  else match String.get (Z.to_nat i) s with
       | Some c => Some c
       | None =>
           if (i =? Z.of_nat (String.length s))%Z then Some Ascii.zero
           else None
       end.

(** The test [IFN[Len-3] == '.' && IFN[Len-2] == 'l' && IFN[Len-1] == 'l'],
    evaluated left to right and no further than needed. *)
Definition ends_in_ll (IFN : string) (Len : Z) : option bool :=
  c3 ← string_at IFN (Len - 3);
  if bool_decide (c3 = "."%char) then
    c2 ← string_at IFN (Len - 2);
    if bool_decide (c2 = "l"%char) then
      c1 ← string_at IFN (Len - 1);
      Some (bool_decide (c1 = "l"%char))
    else Some false
  else Some false.

(** The first block of [WriteOutputFile]: the value of [OutputFilename]
    after it, or nothing where the behaviour is undefined. *)
Definition infer_OutputFilename (InputFilename OutputFilename : string)
    : option string :=
  if bool_decide (OutputFilename = "") then
    if bool_decide (InputFilename = "-") then Some "-"
    else
      let IFN := InputFilename in
      let Len := to_int (Z.of_nat (String.length IFN)) in
      ll ← ends_in_ll IFN Len;
      let stem :=
        if ll : bool then String.substring 0 (String.length IFN - 3) IFN
        else IFN in
      Some (stem +:+ ".bc")
  else Some OutputFilename.

Section Driver.

(** The in-memory program representation. *)
Variable LLVMModule : Type.

(** [ParseAssemblyFile]: the module, or the diagnostic. *)
Variable ParseAssemblyFile : string → LLVMModule + string.

(** [Err.print(argv[0], errs())]: the text printed for a diagnostic. *)
Variable SMDiagnostic_print : string → string → string.

(** [verifyModule]: whether the module is broken, and the text it reports. *)
Variable verifyModule : LLVMModule → bool * string.

(** [errs() << *M]: the assembly text of a module. *)
Variable print_Module : LLVMModule → string.

(** The constructor of [tool_output_file]: the [ErrorInfo] it leaves. *)
Variable tool_output_file : string → string.

(** [CheckBitcodeOutputToConsole] on the stream of the named file. *)
Variable CheckBitcodeOutputToConsole : string → bool.

(** [WriteOutputFile]: the events, and on return the value of the global
    [OutputFilename]. *)
Definition WriteOutputFile (opts : Options) (M : LLVMModule)
    : list Event * Completion string :=
  match infer_OutputFilename (InputFilename opts) (OutputFilename opts) with
  | None => ([], Undefined)
  | Some Out =>
      let ErrorInfo := tool_output_file Out in
      if negb (bool_decide (ErrorInfo = "")) then
        ([tool_output_file_opened Out; errs (ErrorInfo +:+ newline)], Exit 1)
      else
        let written :=
          if Force opts then [WriteBitcodeToFile (BitcodeVersion opts) Out]
          else if CheckBitcodeOutputToConsole Out then
            [CheckBitcodeOutputToConsole_called Out]
          else [CheckBitcodeOutputToConsole_called Out;
                WriteBitcodeToFile (BitcodeVersion opts) Out] in
        (tool_output_file_opened Out :: written ++ [keep Out], Normal Out)
  end.

(** [main], from the parsing of the file on. *)
Definition main (argv0 : string) (opts : Options)
    : list Event * Completion Z :=
  match ParseAssemblyFile (InputFilename opts) with
  | inr Err => ([errs (SMDiagnostic_print argv0 Err)], Normal 1%Z)
  | inl M =>
      let broken :=
        if DisableVerify opts then (false, "") else verifyModule M in
      if broken.1 then
        ([errs (argv0
                +:+ ": assembly parsed, but does not verify as correct!"
                +:+ newline);
          errs broken.2], Normal 1%Z)
      else
        let dump :=
          if DumpAsm opts then
            [errs ("Here's the assembly:" +:+ newline +:+ print_Module M)]
          else [] in
        if DisableOutput opts then (dump, Normal 0%Z)
        else
          let '(events, completion) := WriteOutputFile opts M in
          (dump ++ events,
           match completion with
           | Normal _ => Normal 0%Z
           | Exit status => Exit status
           | Undefined => Undefined
           end)
  end.

End Driver.

(** Whether a bitcode file was written. *)
Definition is_write (e : Event) : bool :=
  match e with
  | WriteBitcodeToFile _ _ => true
  | _ => false
  end.

(** What [main] prints for [-d], ahead of the output. *)
Definition dump_text {LLVMModule : Type} (print_Module : LLVMModule → string)
    (opts : Options) (M : LLVMModule) : list Event :=
  if DumpAsm opts then
    [errs ("Here's the assembly:" +:+ newline +:+ print_Module M)]
  else [].

(** Whether an event is text on [errs()]. *)
Definition is_errs (e : Event) : bool :=
  match e with
  | errs _ => true
  | _ => false
  end.

(** Whether a name ends in [.ll]. *)
Definition has_ll_suffix (s : string) : Prop := ∃ stem, s = stem +:+ ".ll".

(** The module is parsed and, unless verification is disabled, verified:
    the condition under which [main] goes past its two early returns. *)
Definition accepted {LLVMModule : Type}
    (ParseAssemblyFile : string → LLVMModule + string)
    (verifyModule : LLVMModule → bool * string)
    (opts : Options) (M : LLVMModule) : Prop :=
  ParseAssemblyFile (InputFilename opts) = inl M
  ∧ (DisableVerify opts = true ∨ (verifyModule M).1 = false).

End LLVMAs.

(** Small collaborators for the driver: a module is the text of its file;
    one file does not parse, one does not verify, one cannot be opened, and
    [-] is the console. *)
Module SampleDriver.

Definition ParseAssemblyFile (file : string) : string + string :=
  if bool_decide (file = "garbage.ll") then inr "expected top-level entity"
  else inl file.

Definition SMDiagnostic_print (argv0 Err : string) : string :=
  argv0 +:+ ": " +:+ Err.

Definition verifyModule (M : string) : bool * string :=
  if bool_decide (M = "broken.ll") then (true, "Broken module found")
  else (false, "").

Definition print_Module (M : string) : string := "; ModuleID = " +:+ M.

Definition tool_output_file (file : string) : string :=
  if bool_decide (file = "/readonly.bc") then "Permission denied" else "".

Definition CheckBitcodeOutputToConsole (file : string) : bool :=
  bool_decide (file = "-").

Definition main : string → LLVMAs.Options → list LLVMAs.Event * LLVMAs.Completion Z :=
  LLVMAs.main string ParseAssemblyFile SMDiagnostic_print verifyModule
              print_Module tool_output_file CheckBitcodeOutputToConsole.

(** [llvm-as kernel.ll], with the defaults of the other options. *)
Definition kernel_options : LLVMAs.Options :=
  LLVMAs.mkOptions "kernel.ll" "" false false false false LLVMAs.BC32.

(** [llvm-as], reading the standard input and writing to the console. *)
Definition stdin_options : LLVMAs.Options :=
  LLVMAs.mkOptions "-" "" false false false false LLVMAs.BC32.

(** [llvm-as a]: an input name of one character. *)
Definition short_options : LLVMAs.Options :=
  LLVMAs.mkOptions "a" "" false false false false LLVMAs.BC32.

End SampleDriver.

(* --------------------------------------------------------------------- *)
(** * The scenarios of the specification, run                            *)
(* --------------------------------------------------------------------- *)

(** End-to-end scenario 1: [unsigned char] under the name [rs_uchar]. *)
Example scenario_rs_uchar :
  ∃ st, Sample.CreateFromDecl
          (mkDecl "v" (TypedefType "rs_uchar" Sample.uchar)) initial_state
        = Returns (Some (ExportPrimitive
                     (mkPrimitive "unsigned char" Sample.DataTypeUnsigned8 true))) st.
Proof. eexists. vm_compute. reflexivity. Qed.

(** End-to-end scenario 2: a vector of four under the name [rs_uchar4]. *)
Example scenario_rs_uchar4 :
  ∃ st, Sample.CreateFromDecl
          (mkDecl "v" (TypedefType "rs_uchar4" Sample.uchar4)) initial_state
        = Returns (Some (ExportVector
                     (mkVector "unsigned char vector"
                               Sample.DataTypeUnsigned8 true 4))) st.
Proof. eexists. vm_compute. reflexivity. Qed.

(** End-to-end scenario 3: a plain [float] goes to the generic builder. *)
Example scenario_plain_float :
  Sample.CreateFromDecl (mkDecl "v" Sample.float) initial_state
  = Returns (Some (ExportOther "float"))
            (mkState false ∅ [] [CallExportTypeCreate Sample.float]).
Proof. vm_compute. reflexivity. Qed.

(* --------------------------------------------------------------------- *)
(** * Running computations                                                *)
(* --------------------------------------------------------------------- *)

Lemma bind_Returns {A B} (m : M A) (f : A → M B) st a st' :
  m st = Returns a st' → (m ≫= f) st = f a st'.
Proof. intros H. unfold mbind, M_bind. by rewrite H. Qed.

Lemma bind_Aborts {A B} (m : M A) (f : A → M B) st text st' :
  m st = Aborts text st' → (m ≫= f) st = Aborts text st'.
Proof. intros H. unfold mbind, M_bind. by rewrite H. Qed.

(** Unfolds the plumbing of the monad, leaving the functions of the program. *)
Ltac run_monad :=
  unfold mbind, M_bind, mret, M_ret, get_state, put_state,
    record_call, fprintf_stderr; simpl.

(* --------------------------------------------------------------------- *)
(** * The catalogue: what [Init] builds                                   *)
(* --------------------------------------------------------------------- *)

Section CatalogueFacts.

Variable table : list ElementEntry.

Lemma lookup_StringMap_insert Name EI (m : gmap string ElementInfo) k :
  StringMap_insert Name EI m !! k
  = match m !! k with
    | Some x => Some x
    | None => if bool_decide (Name = k) then Some EI else None
    end.
Proof.
  unfold StringMap_insert.
  destruct (m !! Name) as [y|] eqn:Hn.
  - destruct (m !! k) as [x|] eqn:Hk; [done|].
    case_bool_decide; [congruence | done].
  - rewrite lookup_insert. case_decide as Hd.
    + subst k. rewrite Hn. by rewrite bool_decide_eq_true_2.
    + rewrite bool_decide_eq_false_2 by done. by destruct (m !! k).
Qed.

Lemma lookup_expand_table (m : gmap string ElementInfo) k :
  expand_table table m !! k
  = match m !! k with
    | Some x => Some x
    | None => first_entry table k
    end.
Proof.
  unfold expand_table. revert m.
  induction table as [|e rest IH]; intros m; simpl.
  - by destruct (m !! k).
  - rewrite IH. unfold ENUM_RS_DATA_ELEMENT.
    rewrite lookup_StringMap_insert.
    destruct (m !! k); [done|]. by case_bool_decide.
Qed.

Lemma lookup_catalogue k : expand_table table ∅ !! k = first_entry table k.
Proof. rewrite lookup_expand_table. by rewrite lookup_empty. Qed.

Lemma first_entry_is_Some k :
  is_Some (first_entry table k) ↔ k ∈ entry_name <$> table.
Proof.
  induction table as [|e rest IH]; simpl.
  - split; [intros [? ?]; done | intros H; by apply elem_of_nil in H].
  - case_bool_decide as Hd.
    + split; [intros _; subst k; left | intros _; eauto].
    + rewrite IH. split; [intros H; by right|].
      intros H. apply elem_of_cons in H as [H|H]; [congruence | done].
Qed.

Lemma first_entry_in_table k EI :
  first_entry table k = Some EI →
  ∃ e, e ∈ table ∧ entry_name e = k ∧ entry_info e = EI.
Proof.
  induction table as [|e rest IH]; simpl; [done|].
  case_bool_decide as Hd.
  - intros [= <-]. exists e. split; [left | done].
  - intros H. destruct (IH H) as (e' & ? & ? & ?).
    exists e'. split; [by right | done].
Qed.

Lemma dom_catalogue :
  dom (expand_table table ∅) = list_to_set (C := gset string) (entry_name <$> table).
Proof.
  apply set_eq. intros k.
  rewrite elem_of_dom, lookup_catalogue, first_entry_is_Some.
  by rewrite elem_of_list_to_set.
Qed.

Lemma size_catalogue :
  size (expand_table table ∅) = length (remove_dups (entry_name <$> table)).
Proof.
  rewrite <- size_dom, dom_catalogue.
  rewrite <- (size_list_to_set (C := gset string) (remove_dups (entry_name <$> table)))
    by apply NoDup_remove_dups.
  f_equal. apply set_eq. intros k.
  by rewrite !elem_of_list_to_set, elem_of_remove_dups.
Qed.

Lemma Init_first st :
  Initialized st = false →
  Init table st
  = Returns tt (mkState true (expand_table table (ElementInfoMap st))
                        (stderr st) (calls st)).
Proof. intros H. unfold Init. run_monad. by rewrite H. Qed.

Lemma Init_later st : Initialized st = true → Init table st = Returns tt st.
Proof. intros H. unfold Init. run_monad. by rewrite H. Qed.

Lemma Init_catalogue_state st :
  catalogue_state table st → Init table st = Returns tt (initialized table st).
Proof.
  intros [[Hi Hm]|[Hi Hm]].
  - rewrite Init_first by done. by rewrite Hm.
  - rewrite Init_later by done. unfold initialized.
    destruct st; simpl in *; by subst.
Qed.

Lemma Init_unless_Initialized_catalogue_state st :
  catalogue_state table st →
  Init_unless_Initialized table st = Returns tt (initialized table st).
Proof.
  intros H. unfold Init_unless_Initialized. run_monad.
  destruct (Initialized st) eqn:Hi; simpl.
  - destruct H as [[? ?]|[_ Hm]]; [congruence|].
    unfold initialized. destruct st; simpl in *; by subst.
  - by apply Init_catalogue_state.
Qed.

Lemma catalogue_state_initialized st : catalogue_state table (initialized table st).
Proof. right. done. Qed.

Lemma Init_times_initialized n st :
  Init_times table n (initialized table st) = Returns tt (initialized table st).
Proof.
  induction n as [|n IH]; simpl; [done|].
  erewrite bind_Returns; [apply IH|]. by apply Init_later.
Qed.

Lemma GetElementInfo_catalogue_state Name st :
  catalogue_state table st →
  GetElementInfo table Name st
  = Returns (first_entry table Name) (initialized table st).
Proof.
  intros H. unfold GetElementInfo.
  erewrite bind_Returns by by apply Init_unless_Initialized_catalogue_state.
  run_monad. by rewrite lookup_catalogue.
Qed.

End CatalogueFacts.

(* --------------------------------------------------------------------- *)
(** * [Create]: the steps before the switch                               *)
(* --------------------------------------------------------------------- *)

Section CreateFacts.

Variable table : list ElementEntry.
Variable NormalizeType : ClangType → option (ClangType * string).
Variable RSExportPrimitiveType_Create :
  ClangType → string → bool → RSExportPrimitiveType.
Variable RSExportVectorType_Create :
  ClangType → string → bool → RSExportVectorType.

Local Abbreviation create :=
  (Create table NormalizeType
          RSExportPrimitiveType_Create RSExportVectorType_Create).
Local Abbreviation create_switch :=
  (Create_switch RSExportPrimitiveType_Create RSExportVectorType_Create).

Lemma Init_after_Init st : Init table st = Returns tt (after_Init table st).
Proof.
  unfold Init, after_Init. run_monad. by destruct (Initialized st).
Qed.

Lemma Init_unless_Initialized_after_Init st :
  Init_unless_Initialized table st = Returns tt (after_Init table st).
Proof.
  unfold Init_unless_Initialized. run_monad.
  destruct (Initialized st) eqn:Hi; simpl.
  - unfold after_Init. by rewrite Hi.
  - apply Init_after_Init.
Qed.

Lemma after_Init_catalogue_state st :
  catalogue_state table st → after_Init table st = initialized table st.
Proof.
  unfold after_Init, initialized.
  intros [[Hi Hm]|[Hi Hm]]; rewrite Hi.
  - by rewrite Hm.
  - destruct st; simpl in *; by subst.
Qed.

Lemma after_Init_Initialized st : Initialized (after_Init table st) = true.
Proof. unfold after_Init. by destruct (Initialized st) eqn:Hi. Qed.

Lemma after_Init_idem st :
  after_Init table (after_Init table st) = after_Init table st.
Proof. unfold after_Init at 1. by rewrite after_Init_Initialized. Qed.

(** [Create] with a descriptor: the guard, then the normalization, and on
    its success the switch. *)
Lemma Create_Some T EI st :
  create T (Some EI) st
  = match NormalizeType T with
    | None => Returns None (add_call (CallNormalizeType T) (after_Init table st))
    | Some (T', TypeName) =>
        create_switch T' TypeName EI
          (add_call (CallNormalizeType T) (after_Init table st))
    end.
Proof.
  unfold Create.
  erewrite bind_Returns by apply Init_unless_Initialized_after_Init.
  erewrite bind_Returns by (rewrite bool_decide_eq_true_2 by eauto; reflexivity).
  unfold call_NormalizeType. run_monad.
  by destruct (NormalizeType T) as [[T' TypeName]|].
Qed.

(** [Create] without a descriptor is stopped by its first assertion. *)
Lemma Create_None T st :
  create T None st = Aborts "Element info not found" (after_Init table st).
Proof.
  unfold Create.
  erewrite bind_Returns by apply Init_unless_Initialized_after_Init.
  reflexivity.
Qed.

(** An explicit [Init] ahead of [Create] changes nothing. *)
Lemma Create_Init T EI st : (Init table;; create T EI) st = create T EI st.
Proof.
  erewrite bind_Returns by apply Init_after_Init.
  destruct EI as [EI|].
  - by rewrite !Create_Some, after_Init_idem.
  - by rewrite !Create_None, after_Init_idem.
Qed.

(** The switch leaves the static members alone. *)
Lemma Create_switch_catalogue T TypeName EI st :
  Initialized (final_state (create_switch T TypeName EI st)) = Initialized st
  ∧ ElementInfoMap (final_state (create_switch T TypeName EI st))
    = ElementInfoMap st.
Proof.
  unfold Create_switch, call_RSExportPrimitiveType_Create,
    call_RSExportVectorType_Create, slangAssert.
  destruct (getTypeClass T); run_monad;
    repeat (case_bool_decide; simpl); done.
Qed.

Lemma Create_catalogue T EI st :
  Initialized (final_state (create T EI st)) = true
  ∧ ElementInfoMap (final_state (create T EI st))
    = ElementInfoMap (after_Init table st).
Proof.
  destruct EI as [EI|].
  - rewrite Create_Some.
    destruct (NormalizeType T) as [[T' TypeName]|]; simpl.
    + destruct (Create_switch_catalogue T' TypeName EI
                  (add_call (CallNormalizeType T) (after_Init table st)))
        as [-> ->].
      simpl. by rewrite after_Init_Initialized.
    + by rewrite after_Init_Initialized.
  - rewrite Create_None. simpl. by rewrite after_Init_Initialized.
Qed.

Lemma after_Init_calls st : calls (after_Init table st) = calls st.
Proof. unfold after_Init. by destruct (Initialized st). Qed.

Lemma after_Init_stderr st : stderr (after_Init table st) = stderr st.
Proof. unfold after_Init. by destruct (Initialized st). Qed.

(** The switch only adds to the record of calls. *)
Lemma Create_switch_calls T TypeName EI st :
  ∃ more,
    calls (final_state (create_switch T TypeName EI st)) = calls st ++ more.
Proof.
  unfold Create_switch, call_RSExportPrimitiveType_Create,
    call_RSExportVectorType_Create, slangAssert.
  destruct (getTypeClass T); run_monad;
    repeat (case_bool_decide; simpl);
    solve [ by exists [] ; rewrite app_nil_r | by eexists ].
Qed.

(** The first call [Create] makes is to the normalizer, on the node it was
    given. *)
Lemma Create_calls_NormalizeType T EI st :
  calls (final_state (create T (Some EI) st)) !! length (calls st)
  = Some (CallNormalizeType T).
Proof.
  rewrite Create_Some.
  destruct (NormalizeType T) as [[T' TypeName]|]; simpl.
  - destruct (Create_switch_calls T' TypeName EI
                (add_call (CallNormalizeType T) (after_Init table st)))
      as [more ->].
    simpl. rewrite after_Init_calls.
    rewrite <- app_assoc. by apply list_lookup_middle.
  - rewrite after_Init_calls. by apply list_lookup_middle.
Qed.

End CreateFacts.

(* --------------------------------------------------------------------- *)
(** * [Create]: the properties of the specification                       *)
(* --------------------------------------------------------------------- *)

(** C7.  When the normalization of the type node fails, [Create] returns
    [NULL] (NotExportable) at that point: the state it leaves holds the call
    to the normalizer and nothing after it, so no class was branched on, no
    export type was built and nothing was printed. *)
Theorem Create_normalization_fails
    (table : list ElementEntry)
    (NormalizeType : ClangType → option (ClangType * string))
    (PrimitiveCreate : ClangType → string → bool → RSExportPrimitiveType)
    (VectorCreate : ClangType → string → bool → RSExportVectorType)
    (T : ClangType) (EI : ElementInfo) (st : State) :
  NormalizeType T = None →
  Create table NormalizeType PrimitiveCreate VectorCreate T (Some EI) st
  = Returns None (add_call (CallNormalizeType T) (after_Init table st))
  ∧ NotExportable
      (Create table NormalizeType PrimitiveCreate VectorCreate T (Some EI) st).
Proof.
  intros Hfail.
  assert (Create table NormalizeType PrimitiveCreate VectorCreate T (Some EI) st
          = Returns None (add_call (CallNormalizeType T) (after_Init table st)))
    as Hrun by (by rewrite Create_Some, Hfail).
  split; [exact Hrun|]. rewrite Hrun. by eexists.
Qed.

Lemma Create_normalization_fails_witness :
  Sample.NormalizeType (BuiltinType "long double") = None
  ∧ Sample.Create (BuiltinType "long double") (Some Sample.rs_uchar_info)
      initial_state
    = Returns None
        (mkState true Sample.built []
                 [CallNormalizeType (BuiltinType "long double")]).
Proof.
  split; [reflexivity|].
  apply (Create_normalization_fails Sample.table Sample.NormalizeType
           Sample.RSExportPrimitiveType_Create
           Sample.RSExportVectorType_Create
           (BuiltinType "long double") Sample.rs_uchar_info initial_state).
  reflexivity.
Defined.

(** C4.  When the node [Create] switches on is of builtin or pointer class
    and the descriptor has a vector width above 1, the first assertion of
    that case fails: the process is aborted (CatalogueInconsistency, which is
    not a [NULL] return), the primitive builder has not been called, and no
    primitive export type is returned. *)
Theorem Create_scalar_with_vector_width
    (table : list ElementEntry)
    (NormalizeType : ClangType → option (ClangType * string))
    (PrimitiveCreate : ClangType → string → bool → RSExportPrimitiveType)
    (VectorCreate : ClangType → string → bool → RSExportVectorType)
    (T T' : ClangType) (TypeName : string) (EI : ElementInfo) (st : State) :
  NormalizeType T = Some (T', TypeName) →
  getTypeClass T' = Builtin ∨ getTypeClass T' = Pointer →
  (1 < vsize EI)%N →
  let run :=
    Create table NormalizeType PrimitiveCreate VectorCreate T (Some EI) st in
  run = Aborts "Element not a primitive class (please check your macro)"
               (add_call (CallNormalizeType T) (after_Init table st))
  ∧ CatalogueInconsistency run
  ∧ ¬ NotExportable run
  ∧ ∀ ET st', run ≠ Returns ET st'.
Proof.
  intros Hnorm Hclass Hwidth run.
  assert (run = Aborts "Element not a primitive class (please check your macro)"
                  (add_call (CallNormalizeType T) (after_Init table st)))
    as Hrun.
  { subst run. rewrite Create_Some, Hnorm. unfold Create_switch.
    assert (bool_decide (vsize EI = 1%N) = false) as Hb
      by (apply bool_decide_eq_false_2; lia).
    destruct Hclass as [-> | ->];
      (erewrite bind_Aborts; [reflexivity|]); by rewrite Hb. }
  rewrite Hrun. repeat split.
  - by do 2 eexists.
  - by intros [? ?].
  - done.
Qed.

Lemma Create_scalar_with_vector_width_witness :
  Sample.NormalizeType Sample.uchar = Some (Sample.uchar, "unsigned char")
  ∧ (1 < vsize Sample.rs_uchar4_info)%N
  ∧ CatalogueInconsistency
      (Sample.Create Sample.uchar (Some Sample.rs_uchar4_info) initial_state).
Proof.
  split; [reflexivity|]. split; [reflexivity|].
  apply (Create_scalar_with_vector_width Sample.table Sample.NormalizeType
           Sample.RSExportPrimitiveType_Create
           Sample.RSExportVectorType_Create
           Sample.uchar Sample.uchar "unsigned char"
           Sample.rs_uchar4_info initial_state).
  - reflexivity.
  - left. reflexivity.
  - reflexivity.
Defined.

(** C5.  When the node [Create] switches on is of [ExtVector] class and the
    descriptor has a vector width above 1, the vector builder is called on
    the canonical type of that node; the export type it builds is returned
    when its data type and its number of elements are those of the
    descriptor, and otherwise the process is aborted (CatalogueInconsistency).
    Hence whatever is returned has the descriptor's kind and width. *)
Theorem Create_vector
    (table : list ElementEntry)
    (NormalizeType : ClangType → option (ClangType * string))
    (PrimitiveCreate : ClangType → string → bool → RSExportPrimitiveType)
    (VectorCreate : ClangType → string → bool → RSExportVectorType)
    (T T' : ClangType) (TypeName : string) (EI : ElementInfo) (st : State) :
  NormalizeType T = Some (T', TypeName) →
  getTypeClass T' = ExtVector →
  (1 < vsize EI)%N →
  let run :=
    Create table NormalizeType PrimitiveCreate VectorCreate T (Some EI) st in
  let EVT := VectorCreate (GET_CANONICAL_TYPE T') TypeName (normalized EI) in
  let st' :=
    add_call (CallVectorTypeCreate (GET_CANONICAL_TYPE T') TypeName
                                   (normalized EI))
      (add_call (CallNormalizeType T) (after_Init table st)) in
  (evt_getType EVT = type EI ∧ evt_getNumElement EVT = vsize EI →
     run = Returns (Some (ExportVector EVT)) st')
  ∧ (evt_getType EVT ≠ type EI →
     run = Aborts "Element has unexpected type" st')
  ∧ (evt_getType EVT = type EI → evt_getNumElement EVT ≠ vsize EI →
     run = Aborts "Element has unexpected size of vector" st')
  ∧ (evt_getType EVT ≠ type EI ∨ evt_getNumElement EVT ≠ vsize EI →
     CatalogueInconsistency run)
  ∧ (∀ ET st'', run = Returns ET st'' →
       ET = Some (ExportVector EVT)
       ∧ evt_getType EVT = type EI ∧ evt_getNumElement EVT = vsize EI).
Proof.
  intros Hnorm Hclass Hwidth run EVT st'.
  assert (run =
    if bool_decide (type EI = evt_getType EVT) then
      if bool_decide (vsize EI = evt_getNumElement EVT) then
        Returns (Some (ExportVector EVT)) st'
      else Aborts "Element has unexpected size of vector" st'
    else Aborts "Element has unexpected type" st') as Hrun.
  { subst run. rewrite Create_Some, Hnorm. unfold Create_switch.
    rewrite Hclass.
    erewrite bind_Returns
      by (rewrite bool_decide_eq_true_2 by done; reflexivity).
    unfold call_RSExportVectorType_Create, slangAssert. run_monad.
    fold EVT. fold st'.
    by repeat (case_bool_decide; simpl). }
  rewrite Hrun. clear Hrun.
  destruct (decide (type EI = evt_getType EVT)) as [Ht|Ht];
    [rewrite (bool_decide_eq_true_2 _ Ht)
    |rewrite (bool_decide_eq_false_2 _ Ht)];
    [destruct (decide (vsize EI = evt_getNumElement EVT)) as [Hn|Hn];
       [rewrite (bool_decide_eq_true_2 _ Hn)
       |rewrite (bool_decide_eq_false_2 _ Hn)]|].
  - split; [done|]. split; [congruence|]. split; [congruence|].
    split; [intros [?|?]; congruence|].
    intros ET st'' [= <- <-]. done.
  - split; [intros [? ?]; congruence|]. split; [congruence|].
    split; [done|]. split; [intros _; by do 2 eexists|].
    intros ET st'' [=].
  - split; [intros [? ?]; congruence|]. split; [done|].
    split; [congruence|]. split; [intros _; by do 2 eexists|].
    intros ET st'' [=].
Qed.

Lemma Create_vector_witness :
  Sample.NormalizeType Sample.uchar4
  = Some (Sample.uchar4, "unsigned char vector")
  ∧ getTypeClass Sample.uchar4 = ExtVector
  ∧ (1 < vsize Sample.rs_uchar4_info)%N
  ∧ Sample.Create Sample.uchar4 (Some Sample.rs_uchar4_info) initial_state
    = Returns (Some (ExportVector
                 (mkVector "unsigned char vector"
                           Sample.DataTypeUnsigned8 true 4)))
        (mkState true Sample.built []
           [CallNormalizeType Sample.uchar4;
            CallVectorTypeCreate Sample.uchar4 "unsigned char vector" true]).
Proof.
  split; [reflexivity|]. split; [reflexivity|]. split; [reflexivity|].
  apply (Create_vector Sample.table Sample.NormalizeType
           Sample.RSExportPrimitiveType_Create
           Sample.RSExportVectorType_Create
           Sample.uchar4 Sample.uchar4 "unsigned char vector"
           Sample.rs_uchar4_info initial_state);
    [reflexivity | reflexivity | reflexivity | split; reflexivity].
Defined.

(** The descriptor asks for a vector of floats, the type is a vector of
    unsigned chars: the first verification after the build stops the run. *)
Example Create_vector_kind_mismatch :
  Sample.Create Sample.uchar4
    (Some (mkElementInfo Sample.DataTypeFloat32 false 4)) initial_state
  = Aborts "Element has unexpected type"
      (mkState true Sample.built []
         [CallNormalizeType Sample.uchar4;
          CallVectorTypeCreate Sample.uchar4 "unsigned char vector" false]).
Proof. vm_compute. reflexivity. Qed.

(** C8.  When the node [Create] switches on is of none of the classes
    builtin, pointer and [ExtVector], one line naming the class is written to
    [stderr] and [NULL] is returned (NotExportable); no builder is called. *)
Theorem Create_unsupported_class
    (table : list ElementEntry)
    (NormalizeType : ClangType → option (ClangType * string))
    (PrimitiveCreate : ClangType → string → bool → RSExportPrimitiveType)
    (VectorCreate : ClangType → string → bool → RSExportVectorType)
    (T T' : ClangType) (TypeName : string) (EI : ElementInfo) (st : State) :
  NormalizeType T = Some (T', TypeName) →
  getTypeClass T' ≠ Builtin →
  getTypeClass T' ≠ Pointer →
  getTypeClass T' ≠ ExtVector →
  let run :=
    Create table NormalizeType PrimitiveCreate VectorCreate T (Some EI) st in
  run = Returns None
          (add_stderr ("RSExportElement::Create : type '"
                       +:+ getTypeClassName T'
                       +:+ "' is not exportable" +:+ newline)
             (add_call (CallNormalizeType T) (after_Init table st)))
  ∧ NotExportable run
  ∧ ∀ ET st', run ≠ Returns (Some ET) st'.
Proof.
  intros Hnorm Hb Hp Hv run.
  assert (run = Returns None
          (add_stderr ("RSExportElement::Create : type '"
                       +:+ getTypeClassName T'
                       +:+ "' is not exportable" +:+ newline)
             (add_call (CallNormalizeType T) (after_Init table st)))) as Hrun.
  { subst run. rewrite Create_Some, Hnorm. unfold Create_switch.
    destruct (getTypeClass T'); done. }
  rewrite Hrun. repeat split; [by eexists | done].
Qed.

Lemma Create_unsupported_class_witness :
  let T := TypedefType "rs_uchar" (RecordType "S") in
  Sample.NormalizeType T = Some (RecordType "S", "struct S")
  ∧ getTypeClass (RecordType "S") ≠ Builtin
  ∧ getTypeClass (RecordType "S") ≠ Pointer
  ∧ getTypeClass (RecordType "S") ≠ ExtVector
  ∧ Sample.Create T (Some Sample.rs_uchar_info) initial_state
    = Returns None
        (mkState true Sample.built
           ["RSExportElement::Create : type 'Record' is not exportable"
            +:+ newline]
           [CallNormalizeType T]).
Proof.
  intros T.
  split; [reflexivity|]. split; [discriminate|].
  split; [discriminate|]. split; [discriminate|].
  apply (Create_unsupported_class Sample.table Sample.NormalizeType
           Sample.RSExportPrimitiveType_Create
           Sample.RSExportVectorType_Create
           T (RecordType "S") "struct S" Sample.rs_uchar_info initial_state);
    [reflexivity | discriminate | discriminate | discriminate].
Defined.

(* --------------------------------------------------------------------- *)
(** * The catalogue: the properties of the specification                  *)
(* --------------------------------------------------------------------- *)

(** C9.  [Init] is idempotent.  Started on the untouched static members, the
    first call builds the catalogue from the table, a call on the built
    catalogue changes nothing, and so any number of calls (at least one)
    leaves the state of a single call.  The built catalogue has one entry for
    each name of the table and no other: its names are the names of the
    table, their number is the number of distinct names, and the entry of a
    name is, whole, the descriptor of the first line that carries it. *)
Theorem Init_idempotent
    (table : list ElementEntry) (n : nat)
    (err : list string) (cs : list ExternalCall) :
  let untouched := mkState false ∅ err cs in
  let built := mkState true (expand_table table ∅) err cs in
  Init table untouched = Returns tt built
  ∧ Init table built = Returns tt built
  ∧ Init_times table (S n) untouched = Returns tt built
  ∧ (∀ Name, ElementInfoMap built !! Name = first_entry table Name)
  ∧ (∀ Name EI, ElementInfoMap built !! Name = Some EI →
       ∃ e, e ∈ table ∧ entry_name e = Name ∧ entry_info e = EI)
  ∧ dom (ElementInfoMap built)
    = list_to_set (C := gset string) (entry_name <$> table)
  ∧ size (ElementInfoMap built)
    = length (remove_dups (entry_name <$> table)).
Proof.
  intros untouched built.
  assert (Init table untouched = Returns tt built) as Hfirst
    by (by apply Init_first).
  split; [exact Hfirst|].
  split; [by apply Init_later|].
  split.
  { simpl. erewrite bind_Returns by exact Hfirst.
    apply (Init_times_initialized table n built). }
  split; [intros Name; apply lookup_catalogue|].
  split.
  { intros Name EI H. simpl in H. rewrite lookup_catalogue in H.
    by apply first_entry_in_table. }
  split; [apply dom_catalogue | apply size_catalogue].
Qed.

(** A table that repeats a name: the first line stays, the second is not
    entered. *)
Example Init_repeated_name :
  let table := [ ("rs_a", 1%Z, false, 1%N); ("rs_a", 2%Z, true, 4%N) ] in
  ElementInfoMap (final_state (Init_times table 3 initial_state))
  = {[ "rs_a" := mkElementInfo 1%Z false 1%N ]}.
Proof. vm_compute. reflexivity. Qed.

(** C10.  [GetElementInfo] and [Create] build the catalogue themselves.  In
    any state the program can be in, initialized or not, [GetElementInfo]
    answers from the built catalogue, both operations behave as they do after
    an explicit [Init], and both leave the catalogue built. *)
Theorem catalogue_self_initializing
    (table : list ElementEntry)
    (NormalizeType : ClangType → option (ClangType * string))
    (PrimitiveCreate : ClangType → string → bool → RSExportPrimitiveType)
    (VectorCreate : ClangType → string → bool → RSExportVectorType)
    (st : State) :
  catalogue_state table st →
  (∀ Name,
     GetElementInfo table Name st
     = Returns (expand_table table ∅ !! Name) (initialized table st)
     ∧ GetElementInfo table Name st
       = (Init table;; GetElementInfo table Name) st)
  ∧ (∀ T EI,
       let run := Create table NormalizeType PrimitiveCreate VectorCreate T EI in
       run st = (Init table;; run) st
       ∧ Initialized (final_state (run st)) = true
       ∧ ElementInfoMap (final_state (run st)) = expand_table table ∅).
Proof.
  intros Hst. split.
  - intros Name.
    rewrite (GetElementInfo_catalogue_state table Name st Hst).
    split; [by rewrite lookup_catalogue|].
    erewrite bind_Returns by by apply Init_catalogue_state.
    by rewrite GetElementInfo_catalogue_state
      by apply catalogue_state_initialized.
  - intros T EI run. subst run.
    split; [by rewrite Create_Init|].
    destruct (Create_catalogue table NormalizeType PrimitiveCreate
                VectorCreate T EI st) as [Hi Hm].
    split; [exact Hi|]. rewrite Hm.
    by rewrite after_Init_catalogue_state.
Qed.

Lemma catalogue_self_initializing_witness :
  catalogue_state Sample.table initial_state
  ∧ GetElementInfo Sample.table "rs_uchar4" initial_state
    = Returns (Some Sample.rs_uchar4_info)
              (mkState true Sample.built [] []).
Proof.
  split; [left; split; reflexivity|].
  apply (catalogue_self_initializing Sample.table Sample.NormalizeType
           Sample.RSExportPrimitiveType_Create
           Sample.RSExportVectorType_Create initial_state).
  left; split; reflexivity.
Defined.

(* --------------------------------------------------------------------- *)
(** * [CreateFromDecl]: the walk over the alias layers                    *)
(* --------------------------------------------------------------------- *)

Lemma canonical_not_alias T : getTypeClass (GET_CANONICAL_TYPE T) ≠ Typedef.
Proof. induction T; simpl; done. Qed.

Lemma alias_not_canonical Name U T : TypedefType Name U ≠ GET_CANONICAL_TYPE T.
Proof.
  intros H. apply (canonical_not_alias T). by rewrite <- H.
Qed.

Lemma strip_aliases_not_alias T : getTypeClass (strip_aliases T) ≠ Typedef.
Proof. induction T; simpl; done. Qed.

Lemma strip_aliases_no_layer T : alias_layers T = [] → strip_aliases T = T.
Proof. destruct T; simpl; done. Qed.

(** A layer of a type carries the layers below it. *)
Lemma alias_layers_suffix T outer L inner :
  alias_layers T = outer ++ L :: inner → alias_layers L = L :: inner.
Proof.
  revert T. induction outer as [|O outer IH]; intros T H.
  - destruct T; simpl in H; try done. by injection H as <- <-.
  - destruct T; simpl in H; try done. injection H as _ H. by eapply IH.
Qed.

Lemma alias_layers_outermost T outer L inner :
  alias_layers T = outer ++ L :: inner → (outer = [] ↔ L = T).
Proof.
  intros H. split.
  - intros ->. destruct T; simpl in H; try done. by injection H as <- _.
  - intros ->. pose proof (alias_layers_suffix _ _ _ _ H) as Hs.
    rewrite Hs in H. apply (f_equal length) in H.
    rewrite length_app in H. simpl in H.
    destruct outer; [done | simpl in H; lia].
Qed.

Lemma alias_layers_are_aliases T L : L ∈ alias_layers T → getTypeClass L = Typedef.
Proof.
  induction T; simpl; intros H; try by apply elem_of_nil in H.
  apply elem_of_cons in H as [-> | H]; [done | by apply IHT].
Qed.

Lemma registered_false table Name U :
  registered table (TypedefType Name U) = false →
  first_entry table Name = None.
Proof.
  unfold registered. simpl. intros H.
  apply bool_decide_eq_false_1 in H.
  destruct (first_entry table Name); [exfalso; eauto | done].
Qed.

Section WalkFacts.

Variable table : list ElementEntry.

(** No layer carries a name of the table: the walk goes through all of
    them and stops on the node underneath, with no descriptor. *)
Lemma typedef_chain_no_match T0 T st :
  catalogue_state table st →
  none_registered table (alias_layers T) = true →
  typedef_chain table (GET_CANONICAL_TYPE T0) T st
  = Returns (strip_aliases T, None) (after_walk table T st).
Proof.
  revert st.
  induction T as [k|P _|E _ n|Name U IH|n|E _ n]; intros st Hst Hnone;
    simpl; try (by case_bool_decide).
  rewrite bool_decide_eq_true_2 by apply alias_not_canonical.
  simpl in Hnone. apply andb_true_iff in Hnone as [Hname Hrest].
  apply negb_true_iff, registered_false in Hname.
  erewrite bind_Returns by by apply GetElementInfo_catalogue_state.
  rewrite Hname.
  rewrite IH by (by try apply catalogue_state_initialized).
  f_equal. by destruct U.
Qed.

(** The layers above [L] carry no name of the table and [L] does: the walk
    stops on [L], with the descriptor of its name. *)
Lemma typedef_chain_match T0 T outer L inner Name EI st :
  catalogue_state table st →
  alias_layers T = outer ++ L :: inner →
  none_registered table outer = true →
  alias_name L = Some Name →
  first_entry table Name = Some EI →
  typedef_chain table (GET_CANONICAL_TYPE T0) T st
  = Returns (L, Some EI) (initialized table st).
Proof.
  intros Hst Hlayers Hnone Hname Hentry.
  revert T st Hst Hlayers Hnone.
  induction outer as [|O outer IH]; intros T st Hst Hlayers Hnone.
  - destruct T as [| | |Name' U| |]; simpl in Hlayers; try done.
    injection Hlayers as <- _. simpl in Hname. injection Hname as ->.
    simpl. rewrite bool_decide_eq_true_2 by apply alias_not_canonical.
    erewrite bind_Returns by by apply GetElementInfo_catalogue_state.
    by rewrite Hentry.
  - destruct T as [| | |Name' U| |]; simpl in Hlayers; try done.
    injection Hlayers as <- Hlayers.
    simpl in Hnone. apply andb_true_iff in Hnone as [HO Hrest].
    apply negb_true_iff, registered_false in HO.
    simpl. rewrite bool_decide_eq_true_2 by apply alias_not_canonical.
    erewrite bind_Returns by by apply GetElementInfo_catalogue_state.
    rewrite HO.
    by rewrite (IH U (initialized table st))
      by (by try apply catalogue_state_initialized).
Qed.

End WalkFacts.

Section CreateFromDeclFacts.

Variable table : list ElementEntry.
Variable NormalizeType : ClangType → option (ClangType * string).
Variable RSExportType_Create : ClangType → option RSExportType.
Variable RSExportPrimitiveType_Create :
  ClangType → string → bool → RSExportPrimitiveType.
Variable RSExportVectorType_Create :
  ClangType → string → bool → RSExportVectorType.

Local Abbreviation create :=
  (Create table NormalizeType
          RSExportPrimitiveType_Create RSExportVectorType_Create).
Local Abbreviation create_from_decl :=
  (CreateFromDecl table NormalizeType RSExportType_Create
                  RSExportPrimitiveType_Create RSExportVectorType_Create).

(** The canonical class is neither builtin nor [ExtVector]: the early
    return. *)
Lemma CreateFromDecl_early_return DD st :
  getTypeClass (GET_CANONICAL_TYPE (GetTypeOfDecl DD)) ≠ Builtin →
  getTypeClass (GET_CANONICAL_TYPE (GetTypeOfDecl DD)) ≠ ExtVector →
  create_from_decl DD st
  = Returns (RSExportType_Create (GetTypeOfDecl DD))
            (add_call (CallExportTypeCreate (GetTypeOfDecl DD)) st).
Proof.
  intros Hb Hv. unfold CreateFromDecl.
  by rewrite !bool_decide_eq_true_2 by done.
Qed.

(** The canonical class is builtin or [ExtVector]: the walk, then the
    choice on its descriptor. *)
Lemma CreateFromDecl_walk DD st :
  getTypeClass (GET_CANONICAL_TYPE (GetTypeOfDecl DD)) = Builtin
  ∨ getTypeClass (GET_CANONICAL_TYPE (GetTypeOfDecl DD)) = ExtVector →
  create_from_decl DD st
  = match typedef_chain table (GET_CANONICAL_TYPE (GetTypeOfDecl DD))
            (GetTypeOfDecl DD) st with
    | Returns (T, None) st' =>
        call_RSExportType_Create RSExportType_Create T st'
    | Returns (T, Some EI) st' => create T (Some EI) st'
    | Aborts text st' => Aborts text st'
    end.
Proof.
  intros Hclass. unfold CreateFromDecl.
  assert (bool_decide (getTypeClass (GET_CANONICAL_TYPE (GetTypeOfDecl DD))
                       ≠ Builtin)
          && bool_decide (getTypeClass (GET_CANONICAL_TYPE (GetTypeOfDecl DD))
                          ≠ ExtVector) = false) as ->.
  { destruct Hclass as [-> | ->]; reflexivity. }
  run_monad.
  destruct (typedef_chain _ _ _ st) as [[T [EI|]] st'|text st']; done.
Qed.

End CreateFromDeclFacts.

(* --------------------------------------------------------------------- *)
(** * [CreateFromDecl]: the properties of the specification               *)
(* --------------------------------------------------------------------- *)

(** C6.  When the canonical form of the declared type is of none of the
    classes builtin, pointer and [ExtVector], [CreateFromDecl] returns what
    the generic builder returns for the declared type node.  The state shows
    that nothing else took place: the generic builder is the one collaborator
    called (so [Create], which calls the normalizer, was not entered), and
    the static members are as they were (so the catalogue was not
    consulted). *)
Theorem CreateFromDecl_other_class
    (table : list ElementEntry)
    (NormalizeType : ClangType → option (ClangType * string))
    (GenericCreate : ClangType → option RSExportType)
    (PrimitiveCreate : ClangType → string → bool → RSExportPrimitiveType)
    (VectorCreate : ClangType → string → bool → RSExportVectorType)
    (DD : DeclaratorDecl) (st : State) :
  let T := GetTypeOfDecl DD in
  let CT := GET_CANONICAL_TYPE T in
  getTypeClass CT ≠ Builtin →
  getTypeClass CT ≠ Pointer →
  getTypeClass CT ≠ ExtVector →
  let run := CreateFromDecl table NormalizeType GenericCreate
               PrimitiveCreate VectorCreate DD st in
  run = Returns (GenericCreate T) (add_call (CallExportTypeCreate T) st)
  ∧ Initialized (final_state run) = Initialized st
  ∧ ElementInfoMap (final_state run) = ElementInfoMap st
  ∧ stderr (final_state run) = stderr st
  ∧ calls (final_state run) = calls st ++ [CallExportTypeCreate T].
Proof.
  intros T CT Hb _ Hv run. subst run.
  rewrite CreateFromDecl_early_return by done.
  done.
Qed.

Lemma CreateFromDecl_other_class_witness :
  let T := TypedefType "rs_uchar" (RecordType "S") in
  getTypeClass (GET_CANONICAL_TYPE T) ≠ Builtin
  ∧ getTypeClass (GET_CANONICAL_TYPE T) ≠ Pointer
  ∧ getTypeClass (GET_CANONICAL_TYPE T) ≠ ExtVector
  ∧ Sample.CreateFromDecl (mkDecl "v" T) initial_state
    = Returns (Some (ExportOther "struct S"))
              (mkState false ∅ [] [CallExportTypeCreate T]).
Proof.
  intros T.
  split; [discriminate|]. split; [discriminate|]. split; [discriminate|].
  apply (CreateFromDecl_other_class Sample.table Sample.NormalizeType
           Sample.RSExportType_Create Sample.RSExportPrimitiveType_Create
           Sample.RSExportVectorType_Create (mkDecl "v" T) initial_state);
    discriminate.
Defined.

(** C1, as the code has it.  When the canonical form of the declared type is
    of builtin or [ExtVector] class and [L] is the outermost alias layer
    whose name is in the catalogue, [CreateFromDecl] returns what [Create]
    returns for the node of the layer [L] and the descriptor of its name.
    That node is an alias, so never the canonical form; it is the declared
    type node exactly when no layer lies above it. *)
Theorem CreateFromDecl_matched_layer
    (table : list ElementEntry)
    (NormalizeType : ClangType → option (ClangType * string))
    (GenericCreate : ClangType → option RSExportType)
    (PrimitiveCreate : ClangType → string → bool → RSExportPrimitiveType)
    (VectorCreate : ClangType → string → bool → RSExportVectorType)
    (DD : DeclaratorDecl) (outer inner : list ClangType) (L : ClangType)
    (Name : string) (EI : ElementInfo) (st : State) :
  let T := GetTypeOfDecl DD in
  let CT := GET_CANONICAL_TYPE T in
  catalogue_state table st →
  getTypeClass CT = Builtin ∨ getTypeClass CT = ExtVector →
  alias_layers T = outer ++ L :: inner →
  none_registered table outer = true →
  alias_name L = Some Name →
  first_entry table Name = Some EI →
  CreateFromDecl table NormalizeType GenericCreate
    PrimitiveCreate VectorCreate DD st
  = Create table NormalizeType PrimitiveCreate VectorCreate
      L (Some EI) (initialized table st)
  ∧ getTypeClass L = Typedef
  ∧ L ≠ CT
  ∧ (outer = [] ↔ L = T).
Proof.
  intros T CT Hst Hclass Hlayers Hnone Hname Hentry. subst CT T.
  split.
  { rewrite CreateFromDecl_walk by done.
    by rewrite (typedef_chain_match table (GetTypeOfDecl DD) (GetTypeOfDecl DD)
                  outer L inner Name EI st). }
  assert (getTypeClass L = Typedef) as HL.
  { apply (alias_layers_are_aliases (GetTypeOfDecl DD)). rewrite Hlayers.
    apply elem_of_app. right. left. }
  split; [exact HL|]. split.
  - intros ->. by apply (canonical_not_alias (GetTypeOfDecl DD)).
  - by apply (alias_layers_outermost _ outer L inner).
Qed.

Lemma CreateFromDecl_matched_layer_witness :
  let L := TypedefType "rs_uchar" Sample.uchar in
  let T := TypedefType "my_pixel" L in
  catalogue_state Sample.table initial_state
  ∧ alias_layers T = [T] ++ L :: []
  ∧ none_registered Sample.table [T] = true
  ∧ first_entry Sample.table "rs_uchar" = Some Sample.rs_uchar_info
  ∧ Sample.CreateFromDecl (mkDecl "v" T) initial_state
    = Sample.Create L (Some Sample.rs_uchar_info)
        (initialized Sample.table initial_state).
Proof.
  intros L T.
  split; [left; split; reflexivity|]. split; [reflexivity|].
  split; [reflexivity|]. split; [reflexivity|].
  apply (CreateFromDecl_matched_layer Sample.table Sample.NormalizeType
           Sample.RSExportType_Create Sample.RSExportPrimitiveType_Create
           Sample.RSExportVectorType_Create
           (mkDecl "v" T) [T] [] L "rs_uchar" Sample.rs_uchar_info
           initial_state);
    [left; split; reflexivity | left; reflexivity | reflexivity
    | reflexivity | reflexivity | reflexivity].
Defined.

(** C1, as it is written, fails.  The name [rs_uchar] is in the catalogue
    and is declared by the second layer of [my_pixel]; the node that reaches
    [Create], and from there the normalizer, is the second layer, not the
    declared type node, and the run is that of no call of [Create] on the
    declared type node. *)
Lemma CreateFromDecl_matched_layer_counterexample :
  let L := TypedefType "rs_uchar" Sample.uchar in
  let T := TypedefType "my_pixel" L in
  let run := Sample.CreateFromDecl (mkDecl "v" T) initial_state in
  alias_layers T = [T; L]
  ∧ registered Sample.table T = false
  ∧ registered Sample.table L = true
  ∧ calls (final_state run)
    = [CallNormalizeType L;
       CallPrimitiveTypeCreate Sample.uchar "unsigned char" true]
  ∧ ∀ EI st, run ≠ Sample.Create T (Some EI) st.
Proof.
  intros L T run.
  split; [reflexivity|]. split; [reflexivity|]. split; [reflexivity|].
  assert (calls (final_state run)
          = [CallNormalizeType L;
             CallPrimitiveTypeCreate Sample.uchar "unsigned char" true])
    as Hrun by (vm_compute; reflexivity).
  split; [exact Hrun|].
  intros EI st H.
  pose proof (Create_calls_NormalizeType Sample.table Sample.NormalizeType
                Sample.RSExportPrimitiveType_Create
                Sample.RSExportVectorType_Create T EI st) as Hfirst.
  fold Sample.Create in Hfirst. rewrite <- H, Hrun in Hfirst.
  destruct (calls st) as [|c1 [|c2 cs]]; simpl in Hfirst; discriminate.
Qed.

(** C2, as the code has it.  When the canonical form of the declared type is
    of builtin, pointer or [ExtVector] class and no alias layer declares a
    name of the catalogue, [CreateFromDecl] returns what the generic builder
    returns: for the declared type node when the class is pointer, where no
    walk takes place, and otherwise for the node the walk ends on, which is
    the declared type with its alias layers taken off (the declared type node
    itself when it has no alias layer). *)
Theorem CreateFromDecl_no_match
    (table : list ElementEntry)
    (NormalizeType : ClangType → option (ClangType * string))
    (GenericCreate : ClangType → option RSExportType)
    (PrimitiveCreate : ClangType → string → bool → RSExportPrimitiveType)
    (VectorCreate : ClangType → string → bool → RSExportVectorType)
    (DD : DeclaratorDecl) (st : State) :
  let T := GetTypeOfDecl DD in
  let CT := GET_CANONICAL_TYPE T in
  let run := CreateFromDecl table NormalizeType GenericCreate
               PrimitiveCreate VectorCreate DD st in
  catalogue_state table st →
  none_registered table (alias_layers T) = true →
  (getTypeClass CT = Pointer →
     run = Returns (GenericCreate T) (add_call (CallExportTypeCreate T) st))
  ∧ (getTypeClass CT = Builtin ∨ getTypeClass CT = ExtVector →
     run = Returns (GenericCreate (strip_aliases T))
             (add_call (CallExportTypeCreate (strip_aliases T))
                       (after_walk table T st)))
  ∧ (alias_layers T = [] → strip_aliases T = T)
  ∧ getTypeClass (strip_aliases T) ≠ Typedef.
Proof.
  intros T CT run Hst Hnone. subst run CT T.
  split; [|split; [|split]].
  - intros Hp. apply CreateFromDecl_early_return; rewrite Hp; done.
  - intros Hclass. rewrite CreateFromDecl_walk by done.
    by rewrite (typedef_chain_no_match table (GetTypeOfDecl DD)
                  (GetTypeOfDecl DD) st).
  - apply strip_aliases_no_layer.
  - apply strip_aliases_not_alias.
Qed.

Lemma CreateFromDecl_no_match_witness :
  let T := TypedefType "my_int" (BuiltinType "int") in
  catalogue_state Sample.table initial_state
  ∧ none_registered Sample.table (alias_layers T) = true
  ∧ getTypeClass (GET_CANONICAL_TYPE T) = Builtin
  ∧ Sample.CreateFromDecl (mkDecl "v" T) initial_state
    = Returns (Some (ExportOther "int"))
        (mkState true Sample.built []
                 [CallExportTypeCreate (BuiltinType "int")]).
Proof.
  intros T.
  split; [left; split; reflexivity|]. split; [reflexivity|].
  split; [reflexivity|].
  apply (CreateFromDecl_no_match Sample.table Sample.NormalizeType
           Sample.RSExportType_Create Sample.RSExportPrimitiveType_Create
           Sample.RSExportVectorType_Create (mkDecl "v" T) initial_state);
    [left; split; reflexivity | reflexivity | left; reflexivity].
Defined.

(** C2, as it is written, fails.  [my_int] stands for [int] and is not in
    the catalogue; the generic builder is called on the node of [int], the
    declared type with its alias layer taken off, and the run is that of no
    call of the generic builder on the declared type node. *)
Lemma CreateFromDecl_no_match_counterexample :
  let T := TypedefType "my_int" (BuiltinType "int") in
  let run := Sample.CreateFromDecl (mkDecl "v" T) initial_state in
  getTypeClass (GET_CANONICAL_TYPE T) = Builtin
  ∧ none_registered Sample.table (alias_layers T) = true
  ∧ calls (final_state run) = [CallExportTypeCreate (BuiltinType "int")]
  ∧ ∀ st, run ≠ call_RSExportType_Create Sample.RSExportType_Create T st.
Proof.
  intros T run.
  split; [reflexivity|]. split; [reflexivity|].
  assert (calls (final_state run) = [CallExportTypeCreate (BuiltinType "int")])
    as Hrun by (vm_compute; reflexivity).
  split; [exact Hrun|].
  intros st H. rewrite H in Hrun. simpl in Hrun.
  destruct (calls st) as [|c1 [|c2 cs]]; simpl in Hrun; discriminate.
Qed.

(** C3, as the code has it.  In a chain [A -> B -> C] whose canonical form is
    of builtin or [ExtVector] class and whose names [A] and [B] are both in
    the catalogue, with different descriptors, the walk stops on the declared
    type node, at its first lookup, with the descriptor of [A]; and
    [CreateFromDecl] returns what [Create] returns for that node and the
    descriptor of [A]. *)
Theorem CreateFromDecl_outer_alias_wins
    (table : list ElementEntry)
    (NormalizeType : ClangType → option (ClangType * string))
    (GenericCreate : ClangType → option RSExportType)
    (PrimitiveCreate : ClangType → string → bool → RSExportPrimitiveType)
    (VectorCreate : ClangType → string → bool → RSExportVectorType)
    (v A B : string) (C : ClangType) (EI_A EI_B : ElementInfo) (st : State) :
  let T := TypedefType A (TypedefType B C) in
  catalogue_state table st →
  getTypeClass (GET_CANONICAL_TYPE C) = Builtin
  ∨ getTypeClass (GET_CANONICAL_TYPE C) = ExtVector →
  first_entry table A = Some EI_A →
  first_entry table B = Some EI_B →
  EI_A ≠ EI_B →
  typedef_chain table (GET_CANONICAL_TYPE T) T st
  = Returns (T, Some EI_A) (initialized table st)
  ∧ CreateFromDecl table NormalizeType GenericCreate
      PrimitiveCreate VectorCreate (mkDecl v T) st
    = Create table NormalizeType PrimitiveCreate VectorCreate
        T (Some EI_A) (initialized table st).
Proof.
  intros T Hst Hclass HA HB Hdiff.
  assert (typedef_chain table (GET_CANONICAL_TYPE T) T st
          = Returns (T, Some EI_A) (initialized table st)) as Hwalk.
  { by apply (typedef_chain_match table T T [] T
                (alias_layers (TypedefType B C)) A EI_A st). }
  split; [exact Hwalk|].
  rewrite CreateFromDecl_walk by done.
  unfold GetTypeOfDecl. simpl decl_type. fold T. by rewrite Hwalk.
Qed.

Lemma CreateFromDecl_outer_alias_wins_witness :
  let T := TypedefType "rs_uchar4" (TypedefType "rs_uchar" Sample.uchar) in
  catalogue_state Sample.table initial_state
  ∧ first_entry Sample.table "rs_uchar4" = Some Sample.rs_uchar4_info
  ∧ first_entry Sample.table "rs_uchar" = Some Sample.rs_uchar_info
  ∧ Sample.rs_uchar4_info ≠ Sample.rs_uchar_info
  ∧ Sample.CreateFromDecl (mkDecl "v" T) initial_state
    = Sample.Create T (Some Sample.rs_uchar4_info)
        (initialized Sample.table initial_state).
Proof.
  intros T.
  split; [left; split; reflexivity|]. split; [reflexivity|].
  split; [reflexivity|]. split; [discriminate|].
  apply (CreateFromDecl_outer_alias_wins Sample.table Sample.NormalizeType
           Sample.RSExportType_Create Sample.RSExportPrimitiveType_Create
           Sample.RSExportVectorType_Create
           "v" "rs_uchar4" "rs_uchar" Sample.uchar
           Sample.rs_uchar4_info Sample.rs_uchar_info initial_state);
    [left; split; reflexivity | left; reflexivity | reflexivity
    | reflexivity | discriminate].
Defined.

(** The descriptor of the outer name decides: the run above is stopped by
    the assertion on the vector width of [rs_uchar4], which the descriptor of
    the inner name [rs_uchar] would have passed. *)
Example CreateFromDecl_outer_alias_wins_run :
  let T := TypedefType "rs_uchar4" (TypedefType "rs_uchar" Sample.uchar) in
  Sample.CreateFromDecl (mkDecl "v" T) initial_state
  = Aborts "Element not a primitive class (please check your macro)"
           (mkState true Sample.built [] [CallNormalizeType T]).
Proof. vm_compute. reflexivity. Qed.

(** C3, as it is written, fails.  Both names of the chain
    [rs_uchar -> rs_uchar4 -> unsigned char *] are in the catalogue, with
    different descriptors, but the canonical form is of pointer class:
    [CreateFromDecl] returns from its first test with what the generic
    builder returns, the catalogue is not consulted and no descriptor is
    used; the run is that of no call of [Create]. *)
Lemma CreateFromDecl_outer_alias_wins_counterexample :
  let C := PointerType Sample.uchar in
  let T := TypedefType "rs_uchar" (TypedefType "rs_uchar4" C) in
  let run := Sample.CreateFromDecl (mkDecl "v" T) initial_state in
  first_entry Sample.table "rs_uchar" = Some Sample.rs_uchar_info
  ∧ first_entry Sample.table "rs_uchar4" = Some Sample.rs_uchar4_info
  ∧ Sample.rs_uchar_info ≠ Sample.rs_uchar4_info
  ∧ run = Returns (Some (ExportOther "unsigned char*"))
                  (mkState false ∅ [] [CallExportTypeCreate T])
  ∧ ∀ T' EI st, run ≠ Sample.Create T' EI st.
Proof.
  intros C T run.
  split; [reflexivity|]. split; [reflexivity|]. split; [discriminate|].
  assert (run = Returns (Some (ExportOther "unsigned char*"))
                        (mkState false ∅ [] [CallExportTypeCreate T]))
    as Hrun by (vm_compute; reflexivity).
  split; [exact Hrun|].
  intros T' EI st H.
  destruct (Create_catalogue Sample.table Sample.NormalizeType
              Sample.RSExportPrimitiveType_Create
              Sample.RSExportVectorType_Create T' EI st) as [Hi _].
  fold Sample.Create in Hi. rewrite <- H, Hrun in Hi. discriminate.
Qed.

(* --------------------------------------------------------------------- *)
(** * llvm-as: strings                                                    *)
(* --------------------------------------------------------------------- *)

Lemma string_length_app (s t : string) :
  String.length (s +:+ t) = String.length s + String.length t.
Proof. induction s as [|c s IH]; simpl; [done | by rewrite IH]. Qed.

Lemma string_get_app_r (s t : string) (k : nat) :
  String.get (String.length s + k) (s +:+ t) = String.get k t.
Proof. induction s as [|c s IH]; simpl; done. Qed.

Lemma string_substring_app_l (s t : string) :
  String.substring 0 (String.length s) (s +:+ t) = s.
Proof.
  induction s as [|c s IH]; simpl; [by destruct t | by rewrite IH].
Qed.

Lemma string_app_inj_r (s t u : string) : s +:+ u = t +:+ u → s = t.
Proof.
  revert t. induction s as [|c s IH]; intros [|d t] H.
  - done.
  - apply (f_equal String.length) in H.
    rewrite !string_length_app in H. simpl in H. exfalso. lia.
  - apply (f_equal String.length) in H.
    rewrite !string_length_app in H. simpl in H. exfalso. lia.
  - injection H as -> H. f_equal. by apply IH.
Qed.

(** A string of at least three characters is a stem and three characters. *)
Lemma string_last_three (s : string) :
  (3 ≤ String.length s)%nat →
  ∃ stem a b c, s = stem +:+ String a (String b (String c "")).
Proof.
  induction s as [|x s IH]; simpl; [lia|]. intros Hlen.
  destruct (decide (3 ≤ String.length s)%nat) as [Hs|Hs].
  - destruct (IH Hs) as (stem & a & b & c & ->).
    by exists (String x stem), a, b, c.
  - destruct s as [|a [|b [|c s]]]; simpl in *; try lia.
    by exists "", x, a, b.
Qed.

Lemma to_int_small (z : Z) : (0 ≤ z < 2 ^ 31)%Z → LLVMAs.to_int z = z.
Proof.
  intros H. unfold LLVMAs.to_int.
  rewrite Z.mod_small by lia. lia.
Qed.

Lemma string_at_app_r (s t : string) (k : nat) (c : ascii) :
  String.get k t = Some c →
  LLVMAs.string_at (s +:+ t) (Z.of_nat (String.length s) + Z.of_nat k) = Some c.
Proof.
  intros H. unfold LLVMAs.string_at.
  destruct (Z.ltb_spec (Z.of_nat (String.length s) + Z.of_nat k) 0); [lia|].
  replace (Z.to_nat (Z.of_nat (String.length s) + Z.of_nat k))
    with (String.length s + k) by lia.
  by rewrite string_get_app_r, H.
Qed.

Lemma string_at_negative (s : string) (i : Z) :
  (i < 0)%Z → LLVMAs.string_at s i = None.
Proof.
  intros H. unfold LLVMAs.string_at.
  by destruct (Z.ltb_spec i 0); [|lia].
Qed.

(** The test on the last three characters, for a name that has them. *)
Lemma ends_in_ll_last_three (stem : string) (a b c : ascii) :
  let IFN := stem +:+ String a (String b (String c "")) in
  LLVMAs.ends_in_ll IFN (Z.of_nat (String.length IFN))
  = Some (bool_decide (a = "."%char ∧ b = "l"%char ∧ c = "l"%char)).
Proof.
  intros IFN. unfold LLVMAs.ends_in_ll.
  assert (Z.of_nat (String.length IFN) = Z.of_nat (String.length stem) + 3)%Z
    as -> by (unfold IFN; rewrite string_length_app; simpl; lia).
  replace (Z.of_nat (String.length stem) + 3 - 3)%Z
    with (Z.of_nat (String.length stem) + Z.of_nat 0)%Z by lia.
  replace (Z.of_nat (String.length stem) + 3 - 2)%Z
    with (Z.of_nat (String.length stem) + Z.of_nat 1)%Z by lia.
  replace (Z.of_nat (String.length stem) + 3 - 1)%Z
    with (Z.of_nat (String.length stem) + Z.of_nat 2)%Z by lia.
  unfold IFN.
  rewrite (string_at_app_r stem _ 0 a) by done. simpl.
  case_bool_decide as Ha; simpl.
  - rewrite (string_at_app_r stem _ 1 b) by done. simpl.
    case_bool_decide as Hb; simpl.
    + rewrite (string_at_app_r stem _ 2 c) by done. simpl.
      f_equal. apply bool_decide_ext. tauto.
    + f_equal. symmetry. apply bool_decide_eq_false_2. tauto.
  - f_equal. symmetry. apply bool_decide_eq_false_2. tauto.
Qed.

Lemma string_app_inj_l (s t u : string) : s +:+ t = s +:+ u → t = u.
Proof.
  induction s as [|c s IH]; intros H; [done|].
  injection H as H. by apply IH.
Qed.

Lemma infer_OutputFilename_unfold (IFN : string) :
  IFN ≠ "-" →
  (Z.of_nat (String.length IFN) < 2 ^ 31)%Z →
  LLVMAs.infer_OutputFilename IFN ""
  = ll ← LLVMAs.ends_in_ll IFN (Z.of_nat (String.length IFN));
    Some ((if ll : bool
           then String.substring 0 (String.length IFN - 3) IFN
           else IFN) +:+ ".bc").
Proof.
  intros Hdash Hlen. unfold LLVMAs.infer_OutputFilename.
  rewrite bool_decide_eq_true_2 by done.
  rewrite bool_decide_eq_false_2 by done.
  by rewrite to_int_small by lia.
Qed.

(** X: the name inferred for an input name of at least three characters. *)
Lemma infer_OutputFilename_long (IFN : string) :
  (3 ≤ String.length IFN)%nat →
  (Z.of_nat (String.length IFN) < 2 ^ 31)%Z →
  (∃ stem, IFN = stem +:+ ".ll"
           ∧ LLVMAs.infer_OutputFilename IFN "" = Some (stem +:+ ".bc"))
  ∨ (¬ LLVMAs.has_ll_suffix IFN
     ∧ LLVMAs.infer_OutputFilename IFN "" = Some (IFN +:+ ".bc")).
Proof.
  intros Hlong Hlen.
  assert (IFN ≠ "-") as Hdash by (intros ->; simpl in Hlong; lia).
  rewrite infer_OutputFilename_unfold by done.
  destruct (string_last_three IFN Hlong) as (stem & a & b & c & HIFN).
  pose proof (ends_in_ll_last_three stem a b c) as Htest.
  simpl in Htest. rewrite <- HIFN in Htest. rewrite Htest. simpl.
  case_bool_decide as Hll.
  - left. destruct Hll as (-> & -> & ->). exists stem. split; [done|].
    do 2 f_equal. rewrite HIFN at 2.
    replace (String.length IFN - 3) with (String.length stem)
      by (rewrite HIFN, string_length_app; simpl; lia).
    apply string_substring_app_l.
  - right. split; [|done]. intros [stem' Hs]. apply Hll.
    rewrite HIFN in Hs.
    assert (String.length stem = String.length stem') as Hl
      by (apply (f_equal String.length) in Hs;
          rewrite !string_length_app in Hs; simpl in Hs; lia).
    assert (∀ k, String.get k (String a (String b (String c "")))
                 = String.get k ".ll") as Hk.
    { intros k. rewrite <- (string_get_app_r stem), Hs, Hl.
      apply string_get_app_r. }
    pose proof (Hk 0) as H0. pose proof (Hk 1) as H1. pose proof (Hk 2) as H2.
    simpl in H0, H1, H2. by simplify_eq.
Qed.

Lemma ends_in_ll_short (IFN : string) :
  (String.length IFN < 3)%nat →
  LLVMAs.ends_in_ll IFN (Z.of_nat (String.length IFN)) = None.
Proof.
  intros H. unfold LLVMAs.ends_in_ll.
  by rewrite (string_at_negative IFN (Z.of_nat (String.length IFN) - 3))
    by lia.
Qed.

Lemma infer_OutputFilename_short (IFN : string) :
  IFN ≠ "-" → (String.length IFN < 3)%nat →
  LLVMAs.infer_OutputFilename IFN "" = None.
Proof.
  intros Hdash Hshort.
  assert (Z.of_nat (String.length IFN) < 2 ^ 31)%Z as Hlen.
  { apply Z.lt_trans with 3%Z; [lia | reflexivity]. }
  rewrite infer_OutputFilename_unfold by done.
  by rewrite ends_in_ll_short.
Qed.

(* --------------------------------------------------------------------- *)
(** * llvm-as: the name of the output file                                *)
(* --------------------------------------------------------------------- *)

(** X1.  With no output name given, an input name of at least three
    characters that ends in [.ll] gets the name with [.ll] replaced by
    [.bc], and an input name of at least three characters that does not end
    in [.ll] gets the name with [.bc] added at its end. *)
Theorem llvm_as_output_name (IFN : string) :
  (3 ≤ String.length IFN)%nat →
  (Z.of_nat (String.length IFN) < 2 ^ 31)%Z →
  (∃ stem, IFN = stem +:+ ".ll"
           ∧ LLVMAs.infer_OutputFilename IFN "" = Some (stem +:+ ".bc"))
  ∨ (¬ LLVMAs.has_ll_suffix IFN
     ∧ LLVMAs.infer_OutputFilename IFN "" = Some (IFN +:+ ".bc")).
Proof. apply infer_OutputFilename_long. Qed.

Lemma llvm_as_output_name_witness :
  (3 ≤ String.length "kernel.ll")%nat
  ∧ (Z.of_nat (String.length "kernel.ll") < 2 ^ 31)%Z
  ∧ ((∃ stem, "kernel.ll" = stem +:+ ".ll"
              ∧ LLVMAs.infer_OutputFilename "kernel.ll" ""
                = Some (stem +:+ ".bc"))
     ∨ (¬ LLVMAs.has_ll_suffix "kernel.ll"
        ∧ LLVMAs.infer_OutputFilename "kernel.ll" ""
          = Some ("kernel.ll" +:+ ".bc"))).
Proof.
  split; [simpl; lia|]. split; [reflexivity|].
  apply (llvm_as_output_name "kernel.ll"); [simpl; lia | reflexivity].
Defined.

(** X2.  With no output name given, the name inferred for an input file
    (any input name but [-]) is never the name of that input file: the
    assembler does not write over its source. *)
Theorem llvm_as_output_name_differs (IFN Out : string) :
  IFN ≠ "-" →
  (Z.of_nat (String.length IFN) < 2 ^ 31)%Z →
  LLVMAs.infer_OutputFilename IFN "" = Some Out →
  Out ≠ IFN.
Proof.
  intros Hdash Hlen Hout.
  destruct (decide (3 ≤ String.length IFN)%nat) as [Hlong|Hshort].
  - destruct (infer_OutputFilename_long IFN Hlong Hlen)
      as [(stem & HIFN & Hres)|[_ Hres]];
      rewrite Hres in Hout; injection Hout as <-.
    + rewrite HIFN. intros Heq. apply string_app_inj_l in Heq. discriminate.
    + intros Heq. apply (f_equal String.length) in Heq.
      rewrite string_length_app in Heq. simpl in Heq. lia.
  - rewrite infer_OutputFilename_short in Hout by (done || lia). discriminate.
Qed.

Lemma llvm_as_output_name_differs_witness :
  "kernel" ≠ "-"
  ∧ (Z.of_nat (String.length "kernel") < 2 ^ 31)%Z
  ∧ LLVMAs.infer_OutputFilename "kernel" "" = Some "kernel.bc"
  ∧ "kernel.bc" ≠ "kernel".
Proof.
  split; [discriminate|]. split; [reflexivity|]. split; [reflexivity|].
  apply (llvm_as_output_name_differs "kernel" "kernel.bc");
    [discriminate | reflexivity | reflexivity].
Defined.

(** X3.  With no output name given, the inference has a defined result
    exactly for the input name [-] and for input names of at least three
    characters: for a shorter name the test for [.ll] reads the string at a
    negative index. *)
Theorem llvm_as_output_name_defined (IFN : string) :
  (Z.of_nat (String.length IFN) < 2 ^ 31)%Z →
  is_Some (LLVMAs.infer_OutputFilename IFN "")
  ↔ IFN = "-" ∨ (3 ≤ String.length IFN)%nat.
Proof.
  intros Hlen. split.
  - intros Hsome.
    destruct (decide (IFN = "-")) as [|Hdash]; [by left|]. right.
    destruct (decide (3 ≤ String.length IFN)%nat) as [|Hshort]; [done|].
    rewrite infer_OutputFilename_short in Hsome by (done || lia).
    by destruct Hsome.
  - intros [-> | Hlong]; [by eexists|].
    destruct (infer_OutputFilename_long IFN Hlong Hlen)
      as [(stem & _ & ->)|[_ ->]]; by eexists.
Qed.

Lemma llvm_as_output_name_defined_witness :
  (Z.of_nat (String.length "a") < 2 ^ 31)%Z
  ∧ LLVMAs.infer_OutputFilename "a" "" = None
  ∧ (is_Some (LLVMAs.infer_OutputFilename "a" "")
     ↔ "a" = "-" ∨ (3 ≤ String.length "a")%nat).
Proof.
  split; [reflexivity|]. split; [reflexivity|].
  apply (llvm_as_output_name_defined "a"). reflexivity.
Defined.

(** X4.  The inference is not one-to-one: a name that does not end in [.ll]
    and the same name with [.ll] added are two input names with one output
    name. *)
Theorem llvm_as_output_name_collision (stem : string) :
  (3 ≤ String.length stem)%nat →
  (Z.of_nat (String.length stem) + 3 < 2 ^ 31)%Z →
  ¬ LLVMAs.has_ll_suffix stem →
  stem ≠ stem +:+ ".ll"
  ∧ LLVMAs.infer_OutputFilename stem "" = Some (stem +:+ ".bc")
  ∧ LLVMAs.infer_OutputFilename (stem +:+ ".ll") "" = Some (stem +:+ ".bc").
Proof.
  intros Hlong Hlen Hno. split; [|split].
  - intros Heq. apply (f_equal String.length) in Heq.
    rewrite string_length_app in Heq. simpl in Heq. lia.
  - destruct (infer_OutputFilename_long stem Hlong) as [(s & Hs & _)|[_ Hres]];
      [lia | | done].
    exfalso. apply Hno. by exists s.
  - destruct (infer_OutputFilename_long (stem +:+ ".ll"))
      as [(s & Hs & Hres)|[Hno' _]].
    + rewrite string_length_app. simpl. lia.
    + rewrite string_length_app. simpl. lia.
    + apply string_app_inj_r in Hs. by subst s.
    + exfalso. apply Hno'. by exists stem.
Qed.

Lemma llvm_as_output_name_collision_witness :
  (3 ≤ String.length "kernel")%nat
  ∧ (Z.of_nat (String.length "kernel") + 3 < 2 ^ 31)%Z
  ∧ LLVMAs.infer_OutputFilename "kernel" "" = Some "kernel.bc"
  ∧ LLVMAs.infer_OutputFilename "kernel.ll" "" = Some "kernel.bc".
Proof.
  split; [simpl; lia|]. split; [reflexivity|].
  apply (llvm_as_output_name_collision "kernel"); [simpl; lia | reflexivity |].
  intros [s Hs].
  assert (∀ k, String.get k "kernel" = String.get k (s +:+ ".ll")) as Hk
    by (by rewrite <- Hs).
  assert (String.length s = 3) as Hl
    by (apply (f_equal String.length) in Hs;
        rewrite string_length_app in Hs; simpl in Hs; lia).
  specialize (Hk (String.length s + 0)).
  rewrite string_get_app_r in Hk. rewrite Hl in Hk. discriminate.
Defined.

(* --------------------------------------------------------------------- *)
(** * llvm-as: the driver                                                 *)
(* --------------------------------------------------------------------- *)

(** The driver assembles one file to [kernel.bc]. *)
Example llvm_as_kernel :
  SampleDriver.main "llvm-as" SampleDriver.kernel_options
  = ([LLVMAs.tool_output_file_opened "kernel.bc";
      LLVMAs.CheckBitcodeOutputToConsole_called "kernel.bc";
      LLVMAs.WriteBitcodeToFile LLVMAs.BC32 "kernel.bc";
      LLVMAs.keep "kernel.bc"], LLVMAs.Normal 0%Z).
Proof. vm_compute. reflexivity. Qed.

Section DriverFacts.

Variable LLVMModule : Type.
Variable ParseAssemblyFile : string → LLVMModule + string.
Variable SMDiagnostic_print : string → string → string.
Variable verifyModule : LLVMModule → bool * string.
Variable print_Module : LLVMModule → string.
Variable tool_output_file : string → string.
Variable CheckBitcodeOutputToConsole : string → bool.

Local Abbreviation main_ :=
  (LLVMAs.main LLVMModule ParseAssemblyFile SMDiagnostic_print verifyModule
               print_Module tool_output_file CheckBitcodeOutputToConsole).
Local Abbreviation write_output_file :=
  (LLVMAs.WriteOutputFile LLVMModule tool_output_file
                          CheckBitcodeOutputToConsole).
Local Abbreviation accepted_ :=
  (LLVMAs.accepted ParseAssemblyFile verifyModule).

Local Abbreviation dump_text := (LLVMAs.dump_text print_Module).

(** Past the two early returns, [main] is the dump and then the output. *)
Lemma main_accepted argv0 opts M :
  accepted_ opts M →
  main_ argv0 opts
  = if LLVMAs.DisableOutput opts then (dump_text opts M, LLVMAs.Normal 0%Z)
    else (dump_text opts M ++ (write_output_file opts M).1,
          match (write_output_file opts M).2 with
          | LLVMAs.Normal _ => LLVMAs.Normal 0%Z
          | LLVMAs.Exit status => LLVMAs.Exit status
          | LLVMAs.Undefined => LLVMAs.Undefined
          end).
Proof.
  intros [Hparse Hverify]. unfold LLVMAs.main, LLVMAs.dump_text.
  rewrite Hparse.
  assert ((if LLVMAs.DisableVerify opts then (false, "") else verifyModule M).1
          = false) as Hb.
  { destruct Hverify as [-> | Hv]; [done|].
    by destruct (LLVMAs.DisableVerify opts). }
  rewrite Hb.
  destruct (LLVMAs.DisableOutput opts); [done|].
  by destruct (write_output_file opts M).
Qed.

(** Short of them, [main] returns 1 and has only printed. *)
Lemma main_rejected argv0 opts :
  (∀ M, ¬ accepted_ opts M) →
  (main_ argv0 opts).2 = LLVMAs.Normal 1%Z
  ∧ forallb LLVMAs.is_errs (main_ argv0 opts).1 = true.
Proof.
  intros Hno. unfold LLVMAs.main.
  destruct (ParseAssemblyFile (LLVMAs.InputFilename opts)) as [M|Err] eqn:Hp;
    [|done].
  destruct (LLVMAs.DisableVerify opts) eqn:Hd.
  - exfalso. apply (Hno M). split; [done | by left].
  - destruct (verifyModule M) as [[|] text] eqn:Hv; simpl; [done|].
    exfalso. apply (Hno M). split; [done | right; by rewrite Hv].
Qed.

Lemma accepted_dec opts :
  (∃ M, accepted_ opts M) ∨ (∀ M, ¬ accepted_ opts M).
Proof.
  unfold LLVMAs.accepted.
  destruct (ParseAssemblyFile (LLVMAs.InputFilename opts)) as [M|Err] eqn:Hp.
  - destruct (LLVMAs.DisableVerify opts) eqn:Hd.
    + left. exists M. split; [done | by left].
    + destruct (verifyModule M).1 eqn:Hv.
      * right. intros M' [[= <-] [?|?]]; congruence.
      * left. exists M. split; [done | by right].
  - right. intros M' [? _]. congruence.
Qed.

Lemma dump_text_errs opts M :
  forallb LLVMAs.is_errs (dump_text opts M) = true.
Proof. unfold LLVMAs.dump_text. by destruct (LLVMAs.DumpAsm opts). Qed.

End DriverFacts.

Section DriverProperties.

Variable LLVMModule : Type.
Variable ParseAssemblyFile : string → LLVMModule + string.
Variable SMDiagnostic_print : string → string → string.
Variable verifyModule : LLVMModule → bool * string.
Variable print_Module : LLVMModule → string.
Variable tool_output_file : string → string.
Variable CheckBitcodeOutputToConsole : string → bool.

Local Abbreviation main_ :=
  (LLVMAs.main LLVMModule ParseAssemblyFile SMDiagnostic_print verifyModule
               print_Module tool_output_file CheckBitcodeOutputToConsole).
Local Abbreviation write_output_file :=
  (LLVMAs.WriteOutputFile LLVMModule tool_output_file
                          CheckBitcodeOutputToConsole).
Local Abbreviation accepted_ :=
  (LLVMAs.accepted ParseAssemblyFile verifyModule).
Local Abbreviation dump_text := (LLVMAs.dump_text print_Module).

Lemma accepted_unique opts M M' : accepted_ opts M → accepted_ opts M' → M = M'.
Proof. intros [H _] [H' _]. congruence. Qed.

Lemma is_write_not_errs l e :
  forallb LLVMAs.is_errs l = true → e ∈ l → LLVMAs.is_write e = false.
Proof.
  intros Hall He. rewrite forallb_forall in Hall.
  apply list_elem_of_In, Hall in He. by destruct e.
Qed.

Lemma filter_write_errs l :
  forallb LLVMAs.is_errs l = true → List.filter LLVMAs.is_write l = [].
Proof.
  induction l as [|e l IH]; simpl; [done|].
  intros H. apply andb_true_iff in H as [He Hl].
  destruct e; simpl in *; try done. by apply IH.
Qed.

(** X5.  A bitcode file is written only for a module that was parsed and,
    unless verification is disabled, verified, with output enabled, to the
    output file that was opened without error, by the writer of the chosen
    version, and only when the output is forced or not bound for the
    console; and at most one file is written. *)
Theorem llvm_as_writes_only_accepted argv0 opts e :
  e ∈ (main_ argv0 opts).1 →
  LLVMAs.is_write e = true →
  (∃ M Out,
     accepted_ opts M
     ∧ LLVMAs.DisableOutput opts = false
     ∧ LLVMAs.infer_OutputFilename (LLVMAs.InputFilename opts)
                                   (LLVMAs.OutputFilename opts) = Some Out
     ∧ tool_output_file Out = ""
     ∧ (LLVMAs.Force opts = true ∨ CheckBitcodeOutputToConsole Out = false)
     ∧ e = LLVMAs.WriteBitcodeToFile (LLVMAs.BitcodeVersion opts) Out)
  ∧ length (List.filter LLVMAs.is_write (main_ argv0 opts).1) = 1.
Proof.
  intros He Hw.
  destruct (accepted_dec _ ParseAssemblyFile verifyModule opts)
    as [[M Hacc]|Hno].
  2: { destruct (main_rejected _ ParseAssemblyFile SMDiagnostic_print
                   verifyModule print_Module tool_output_file
                   CheckBitcodeOutputToConsole argv0 opts Hno) as [_ Herrs].
       rewrite (is_write_not_errs _ _ Herrs He) in Hw. discriminate. }
  revert He. rewrite (main_accepted _ _ _ _ _ _ _ argv0 opts M Hacc).
  pose proof (dump_text_errs _ print_Module opts M) as Hdump.
  destruct (LLVMAs.DisableOutput opts) eqn:Hout; simpl.
  { intros He. rewrite (is_write_not_errs _ _ Hdump He) in Hw. discriminate. }
  unfold LLVMAs.WriteOutputFile.
  destruct (LLVMAs.infer_OutputFilename _ _) as [Out|] eqn:Hname; simpl.
  2: { rewrite app_nil_r. intros He.
       rewrite (is_write_not_errs _ _ Hdump He) in Hw. discriminate. }
  case_bool_decide as Herr; simpl.
  2: { intros He. apply elem_of_app in He as [He|He].
       - rewrite (is_write_not_errs _ _ Hdump He) in Hw. discriminate.
       - apply elem_of_cons in He as [-> | He]; [discriminate|].
         apply elem_of_cons in He as [-> | He]; [discriminate|].
         by apply elem_of_nil in He. }
  rewrite List.filter_app, (filter_write_errs _ Hdump). simpl.
  intros He. apply elem_of_app in He as [He|He].
  { rewrite (is_write_not_errs _ _ Hdump He) in Hw. discriminate. }
  apply elem_of_cons in He as [-> | He]; [discriminate|].
  destruct (LLVMAs.Force opts) eqn:Hforce;
    [|destruct (CheckBitcodeOutputToConsole Out) eqn:Hcons]; simpl in *.
  - split; [|done]. exists M, Out.
    apply elem_of_cons in He as [-> | He].
    + split; [exact Hacc|]. repeat split; try done. by left.
    + apply elem_of_cons in He as [-> | He]; [discriminate|].
      by apply elem_of_nil in He.
  - exfalso.
    apply elem_of_cons in He as [-> | He]; [discriminate|].
    apply elem_of_cons in He as [-> | He]; [discriminate|].
    by apply elem_of_nil in He.
  - split; [|done]. exists M, Out.
    apply elem_of_cons in He as [-> | He]; [discriminate|].
    apply elem_of_cons in He as [-> | He].
    + split; [exact Hacc|]. repeat split; try done. by right.
    + apply elem_of_cons in He as [-> | He]; [discriminate|].
      by apply elem_of_nil in He.
Qed.

End DriverProperties.

Lemma llvm_as_writes_only_accepted_witness :
  let e := LLVMAs.WriteBitcodeToFile LLVMAs.BC32 "kernel.bc" in
  e ∈ (SampleDriver.main "llvm-as" SampleDriver.kernel_options).1
  ∧ LLVMAs.is_write e = true
  ∧ length (List.filter LLVMAs.is_write
              (SampleDriver.main "llvm-as" SampleDriver.kernel_options).1) = 1.
Proof.
  intros e.
  assert (e ∈ (SampleDriver.main "llvm-as" SampleDriver.kernel_options).1)
    as He by (apply list_elem_of_In; vm_compute; tauto).
  split; [exact He|]. split; [reflexivity|].
  apply (llvm_as_writes_only_accepted string
           SampleDriver.ParseAssemblyFile SampleDriver.SMDiagnostic_print
           SampleDriver.verifyModule SampleDriver.print_Module
           SampleDriver.tool_output_file
           SampleDriver.CheckBitcodeOutputToConsole
           "llvm-as" SampleDriver.kernel_options e He).
  reflexivity.
Defined.

Section DriverStatus.

Variable LLVMModule : Type.
Variable ParseAssemblyFile : string → LLVMModule + string.
Variable SMDiagnostic_print : string → string → string.
Variable verifyModule : LLVMModule → bool * string.
Variable print_Module : LLVMModule → string.
Variable tool_output_file : string → string.
Variable CheckBitcodeOutputToConsole : string → bool.

Local Abbreviation main_ :=
  (LLVMAs.main LLVMModule ParseAssemblyFile SMDiagnostic_print verifyModule
               print_Module tool_output_file CheckBitcodeOutputToConsole).
Local Abbreviation accepted_ :=
  (LLVMAs.accepted ParseAssemblyFile verifyModule).
Local Abbreviation dump_text := (LLVMAs.dump_text print_Module).
Local Abbreviation inferred opts :=
  (LLVMAs.infer_OutputFilename (LLVMAs.InputFilename opts)
                               (LLVMAs.OutputFilename opts)).

(** How [main] ends, case by case. *)
Lemma main_completion argv0 opts :
  (main_ argv0 opts).2
  = match ParseAssemblyFile (LLVMAs.InputFilename opts) with
    | inr _ => LLVMAs.Normal 1%Z
    | inl M =>
        if negb (LLVMAs.DisableVerify opts) && (verifyModule M).1
        then LLVMAs.Normal 1%Z
        else if LLVMAs.DisableOutput opts then LLVMAs.Normal 0%Z
        else match inferred opts with
             | None => LLVMAs.Undefined
             | Some Out =>
                 if bool_decide (tool_output_file Out = "")
                 then LLVMAs.Normal 0%Z else LLVMAs.Exit 1%Z
             end
    end.
Proof.
  unfold LLVMAs.main, LLVMAs.WriteOutputFile.
  destruct (ParseAssemblyFile _) as [M|Err]; [|done].
  destruct (LLVMAs.DisableVerify opts); simpl.
  - destruct (LLVMAs.DisableOutput opts); [done|].
    destruct (inferred opts) as [Out|]; [|done].
    by case_bool_decide.
  - destruct (verifyModule M).1; [done|].
    destruct (LLVMAs.DisableOutput opts); [done|].
    destruct (inferred opts) as [Out|]; [|done].
    by case_bool_decide.
Qed.

Lemma accepted_iff opts M :
  accepted_ opts M
  ↔ ParseAssemblyFile (LLVMAs.InputFilename opts) = inl M
    ∧ negb (LLVMAs.DisableVerify opts) && (verifyModule M).1 = false.
Proof.
  unfold LLVMAs.accepted.
  destruct (LLVMAs.DisableVerify opts), (verifyModule M).1; simpl;
    intuition congruence.
Qed.

(** X6.  The exit status of the driver.  [main] returns 1 exactly when the
    file does not parse or, with verification enabled, the module does not
    verify, and then it has only printed to [errs()]: no file was opened.
    It returns 0 exactly when the module is accepted and either output is
    disabled or the output file was named and opened without error; it ends
    with [exit(1)] exactly when the module is accepted, output is enabled and
    the output file could not be opened. *)
Theorem llvm_as_exit_status argv0 opts :
  let run := main_ argv0 opts in
  (run.2 = LLVMAs.Normal 1%Z ↔ ∀ M, ¬ accepted_ opts M)
  ∧ (run.2 = LLVMAs.Normal 1%Z → forallb LLVMAs.is_errs run.1 = true)
  ∧ (run.2 = LLVMAs.Normal 0%Z
     ↔ ∃ M, accepted_ opts M
            ∧ (LLVMAs.DisableOutput opts = true
               ∨ ∃ Out, inferred opts = Some Out ∧ tool_output_file Out = ""))
  ∧ (run.2 = LLVMAs.Exit 1%Z
     ↔ ∃ M Out, accepted_ opts M
                ∧ LLVMAs.DisableOutput opts = false
                ∧ inferred opts = Some Out ∧ tool_output_file Out ≠ "")
  ∧ (∀ status, run.2 = LLVMAs.Normal status → status = 0%Z ∨ status = 1%Z)
  ∧ (∀ status, run.2 = LLVMAs.Exit status → status = 1%Z).
Proof.
  intros run.
  assert (run.2 = LLVMAs.Normal 1%Z ↔ ∀ M, ¬ accepted_ opts M) as Hone.
  { subst run. rewrite main_completion. split.
    - intros H M [Hp Hv]%accepted_iff. rewrite Hp, Hv in H.
      destruct (LLVMAs.DisableOutput opts); [done|].
      destruct (inferred opts); [|done]. by case_bool_decide.
    - intros Hno.
      destruct (ParseAssemblyFile _) as [M|Err] eqn:Hp; [|done].
      destruct (negb (LLVMAs.DisableVerify opts) && (verifyModule M).1)
        eqn:Hv; [done|].
      exfalso. apply (Hno M). by apply accepted_iff. }
  split; [exact Hone|]. split.
  { intros H. pose proof (proj1 Hone H) as Hno.
    by apply (main_rejected _ ParseAssemblyFile SMDiagnostic_print
                verifyModule print_Module tool_output_file
                CheckBitcodeOutputToConsole argv0 opts). }
  subst run. rewrite main_completion. split; [|split; [|split]].
  - split.
    + destruct (ParseAssemblyFile _) as [M|Err] eqn:Hp; [|done].
      destruct (negb (LLVMAs.DisableVerify opts) && (verifyModule M).1)
        eqn:Hv; [done|].
      intros H. exists M. split; [by apply accepted_iff|].
      destruct (LLVMAs.DisableOutput opts); [by left|]. right.
      destruct (inferred opts) as [Out|]; [|done].
      case_bool_decide; [|done]. by exists Out.
    + intros (M & [Hp Hv]%accepted_iff & Hout). rewrite Hp, Hv.
      destruct Hout as [-> | (Out & -> & Hopen)]; [done|].
      destruct (LLVMAs.DisableOutput opts); [done|].
      by rewrite bool_decide_eq_true_2.
  - split.
    + destruct (ParseAssemblyFile _) as [M|Err] eqn:Hp; [|done].
      destruct (negb (LLVMAs.DisableVerify opts) && (verifyModule M).1)
        eqn:Hv; [done|].
      destruct (LLVMAs.DisableOutput opts); [done|].
      destruct (inferred opts) as [Out|]; [|done].
      case_bool_decide; [done|]. intros _. exists M, Out.
      split; [by apply accepted_iff | done].
    + intros (M & Out & [Hp Hv]%accepted_iff & -> & -> & Hopen).
      rewrite Hp, Hv. by rewrite bool_decide_eq_false_2.
  - intros status.
    repeat (case_match; try done); intros [= <-]; by eauto.
  - intros status.
    repeat (case_match; try done); by intros [= <-].
Qed.

(** X7.  When the output is bound for the console and is not forced, no
    bitcode is written, and yet the output file is kept and [main] returns
    0: the events are the dump, the opening of the file, the console check
    and the keeping of the file. *)
Theorem llvm_as_console_refusal argv0 opts M Out :
  accepted_ opts M →
  LLVMAs.DisableOutput opts = false →
  inferred opts = Some Out →
  tool_output_file Out = "" →
  LLVMAs.Force opts = false →
  CheckBitcodeOutputToConsole Out = true →
  main_ argv0 opts
  = (dump_text opts M
     ++ [LLVMAs.tool_output_file_opened Out;
         LLVMAs.CheckBitcodeOutputToConsole_called Out;
         LLVMAs.keep Out],
     LLVMAs.Normal 0%Z)
  ∧ List.filter LLVMAs.is_write (main_ argv0 opts).1 = [].
Proof.
  intros Hacc Hout Hname Hopen Hforce Hcons.
  assert (main_ argv0 opts
          = (dump_text opts M
             ++ [LLVMAs.tool_output_file_opened Out;
                 LLVMAs.CheckBitcodeOutputToConsole_called Out;
                 LLVMAs.keep Out],
             LLVMAs.Normal 0%Z)) as Hrun.
  { rewrite (main_accepted _ _ _ _ _ _ _ argv0 opts M Hacc), Hout.
    unfold LLVMAs.WriteOutputFile.
    rewrite Hname, Hopen, Hforce, Hcons. done. }
  split; [exact Hrun|]. rewrite Hrun. simpl.
  rewrite List.filter_app.
  by rewrite (filter_write_errs _ (dump_text_errs _ print_Module opts M)).
Qed.

(** X8.  For input names below the size at which [int] wraps, the behaviour
    of the driver is undefined exactly when the module is accepted, output
    is enabled, no output name is given, and the input name is not [-] and
    has fewer than three characters. *)
Theorem llvm_as_undefined argv0 opts :
  (Z.of_nat (String.length (LLVMAs.InputFilename opts)) < 2 ^ 31)%Z →
  (main_ argv0 opts).2 = LLVMAs.Undefined
  ↔ ∃ M, accepted_ opts M
         ∧ LLVMAs.DisableOutput opts = false
         ∧ LLVMAs.OutputFilename opts = ""
         ∧ LLVMAs.InputFilename opts ≠ "-"
         ∧ (String.length (LLVMAs.InputFilename opts) < 3)%nat.
Proof.
  intros Hlen. rewrite main_completion.
  assert (inferred opts = None
          ↔ LLVMAs.OutputFilename opts = ""
            ∧ LLVMAs.InputFilename opts ≠ "-"
            ∧ (String.length (LLVMAs.InputFilename opts) < 3)%nat) as Hnone.
  { split.
    - intros Hn.
      destruct (decide (LLVMAs.OutputFilename opts = "")) as [He|Hne].
      + rewrite He in Hn. split; [done|].
        destruct (decide (LLVMAs.InputFilename opts = "-")) as [Hd|Hd];
          [by rewrite Hd in Hn|].
        split; [done|].
        destruct (decide (3 ≤ String.length (LLVMAs.InputFilename opts))%nat)
          as [Hlong|]; [|lia].
        destruct (infer_OutputFilename_long _ Hlong Hlen)
          as [(? & _ & Hr)|[_ Hr]]; rewrite Hr in Hn; discriminate.
      + unfold LLVMAs.infer_OutputFilename in Hn.
        by rewrite bool_decide_eq_false_2 in Hn.
    - intros (-> & Hd & Hshort). by apply infer_OutputFilename_short. }
  split.
  - destruct (ParseAssemblyFile _) as [M|Err] eqn:Hp; [|done].
    destruct (negb (LLVMAs.DisableVerify opts) && (verifyModule M).1)
      eqn:Hv; [done|].
    destruct (LLVMAs.DisableOutput opts); [done|].
    destruct (inferred opts) as [Out|] eqn:Hi; [by case_bool_decide|].
    intros _. exists M. split; [by apply accepted_iff|].
    split; [done|]. by apply Hnone.
  - intros (M & [Hp Hv]%accepted_iff & -> & Hrest).
    rewrite Hp, Hv. by rewrite (proj2 Hnone Hrest).
Qed.

End DriverStatus.

Lemma llvm_as_console_refusal_witness :
  LLVMAs.accepted SampleDriver.ParseAssemblyFile SampleDriver.verifyModule
    SampleDriver.stdin_options "-"
  ∧ SampleDriver.main "llvm-as" SampleDriver.stdin_options
    = ([LLVMAs.tool_output_file_opened "-";
        LLVMAs.CheckBitcodeOutputToConsole_called "-";
        LLVMAs.keep "-"], LLVMAs.Normal 0%Z).
Proof.
  assert (LLVMAs.accepted SampleDriver.ParseAssemblyFile
            SampleDriver.verifyModule SampleDriver.stdin_options "-") as Hacc
    by (split; [reflexivity | right; reflexivity]).
  split; [exact Hacc|].
  apply (llvm_as_console_refusal string
           SampleDriver.ParseAssemblyFile SampleDriver.SMDiagnostic_print
           SampleDriver.verifyModule SampleDriver.print_Module
           SampleDriver.tool_output_file
           SampleDriver.CheckBitcodeOutputToConsole
           "llvm-as" SampleDriver.stdin_options "-" "-" Hacc);
    reflexivity.
Defined.

Lemma llvm_as_undefined_witness :
  (Z.of_nat (String.length (LLVMAs.InputFilename SampleDriver.short_options))
   < 2 ^ 31)%Z
  ∧ SampleDriver.main "llvm-as" SampleDriver.short_options
    = ([], LLVMAs.Undefined)
  ∧ ((SampleDriver.main "llvm-as" SampleDriver.short_options).2
     = LLVMAs.Undefined
     ↔ ∃ M, LLVMAs.accepted SampleDriver.ParseAssemblyFile
              SampleDriver.verifyModule SampleDriver.short_options M
            ∧ LLVMAs.DisableOutput SampleDriver.short_options = false
            ∧ LLVMAs.OutputFilename SampleDriver.short_options = ""
            ∧ LLVMAs.InputFilename SampleDriver.short_options ≠ "-"
            ∧ (String.length
                 (LLVMAs.InputFilename SampleDriver.short_options) < 3)%nat).
Proof.
  split; [reflexivity|]. split; [reflexivity|].
  apply (llvm_as_undefined string
           SampleDriver.ParseAssemblyFile SampleDriver.SMDiagnostic_print
           SampleDriver.verifyModule SampleDriver.print_Module
           SampleDriver.tool_output_file
           SampleDriver.CheckBitcodeOutputToConsole
           "llvm-as" SampleDriver.short_options).
  reflexivity.
Defined.

(* --------------------------------------------------------------------- *)
(** * The catalogue under every operation                                 *)
(* --------------------------------------------------------------------- *)

Section CatalogueInvariant.

Variable table : list ElementEntry.
Variable NormalizeType : ClangType → option (ClangType * string).
Variable RSExportType_Create : ClangType → option RSExportType.
Variable RSExportPrimitiveType_Create :
  ClangType → string → bool → RSExportPrimitiveType.
Variable RSExportVectorType_Create :
  ClangType → string → bool → RSExportVectorType.

Local Abbreviation create :=
  (Create table NormalizeType
          RSExportPrimitiveType_Create RSExportVectorType_Create).
Local Abbreviation create_from_decl :=
  (CreateFromDecl table NormalizeType RSExportType_Create
                  RSExportPrimitiveType_Create RSExportVectorType_Create).
Local Abbreviation touched := (as_is_or_after_Init table).

Lemma same_catalogue_refl st : same_catalogue st st.
Proof. done. Qed.

Lemma same_catalogue_trans st1 st2 st3 :
  same_catalogue st1 st2 → same_catalogue st2 st3 → same_catalogue st1 st3.
Proof. intros [? ?] [? ?]. split; congruence. Qed.

Lemma same_catalogue_add_call c st : same_catalogue st (add_call c st).
Proof. done. Qed.

Lemma touched_after_Init st st' :
  touched (after_Init table st) st' → touched st st'.
Proof.
  intros [H|H]; right; [done|].
  by rewrite after_Init_idem in H.
Qed.

Lemma Init_touched st : touched st (final_state (Init table st)).
Proof. rewrite Init_after_Init. by right. Qed.

Lemma GetElementInfo_run Name st :
  GetElementInfo table Name st
  = Returns (ElementInfoMap (after_Init table st) !! Name)
            (after_Init table st).
Proof.
  unfold GetElementInfo.
  by erewrite bind_Returns by apply Init_unless_Initialized_after_Init.
Qed.

Lemma GetElementInfo_touched Name st :
  touched st (final_state (GetElementInfo table Name st)).
Proof. rewrite GetElementInfo_run. by right. Qed.

Lemma Create_touched T EI st : touched st (final_state (create T EI st)).
Proof.
  right. destruct (Create_catalogue table NormalizeType
                     RSExportPrimitiveType_Create RSExportVectorType_Create
                     T EI st) as [Hi Hm].
  split; [by rewrite after_Init_Initialized | done].
Qed.

(** The walk returns, and leaves the static members as they were or as
    [Init] leaves them. *)
Lemma typedef_chain_touched CT T st :
  ∃ r st', typedef_chain table CT T st = Returns r st' ∧ touched st st'
           ∧ stderr st' = stderr st ∧ calls st' = calls st.
Proof.
  revert st.
  assert (∀ (r : ClangType * option ElementInfo) st,
            ∃ r' st', (mret r : M _) st = Returns r' st' ∧ touched st st'
                      ∧ stderr st' = stderr st ∧ calls st' = calls st)
    as Hret.
  { intros r st. exists r, st. split; [reflexivity|]. split; [by left|done]. }
  induction T as [k|P _|E _ n|Name U IH|n|E _ n]; intros st; simpl;
    try (case_bool_decide; apply Hret).
  case_bool_decide; [|apply Hret].
  erewrite bind_Returns by apply GetElementInfo_run.
  destruct (ElementInfoMap (after_Init table st) !! Name) as [EI|].
  - eexists _, _. split; [reflexivity|]. split; [by right|].
    by rewrite after_Init_stderr, after_Init_calls.
  - destruct (IH (after_Init table st)) as (r & st' & -> & Ht & He & Hc).
    exists r, st'. split; [done|]. split; [by apply touched_after_Init|].
    by rewrite He, Hc, after_Init_stderr, after_Init_calls.
Qed.

Lemma after_Init_same st st' :
  same_catalogue st st' →
  same_catalogue (after_Init table st) (after_Init table st').
Proof.
  unfold same_catalogue, after_Init. intros [Hi Hm]. rewrite Hi.
  destruct (Initialized st) eqn:Hs; simpl; [by rewrite Hs|]. by rewrite Hm.
Qed.

Lemma touched_trans st1 st2 st3 :
  touched st1 st2 → touched st2 st3 → touched st1 st3.
Proof.
  intros [H12|H12] [H23|H23].
  - left. by apply (same_catalogue_trans _ st2).
  - right. apply (same_catalogue_trans _ (after_Init table st2)); [|done].
    by apply after_Init_same.
  - right. by apply (same_catalogue_trans _ st2).
  - right. apply (same_catalogue_trans _ (after_Init table st2)); [|done].
    rewrite <- (after_Init_idem table st1). by apply after_Init_same.
Qed.

Lemma CreateFromDecl_touched DD st :
  touched st (final_state (create_from_decl DD st)).
Proof.
  unfold CreateFromDecl.
  destruct (bool_decide _ && bool_decide _); [by left|].
  destruct (typedef_chain_touched
              (GET_CANONICAL_TYPE (GetTypeOfDecl DD)) (GetTypeOfDecl DD) st)
    as ([T [EI|]] & st' & Hwalk & Ht & _).
  - erewrite bind_Returns by exact Hwalk. simpl.
    apply (touched_trans _ st'); [done|]. apply Create_touched.
  - erewrite bind_Returns by exact Hwalk. simpl.
    apply (touched_trans _ st'); [done|]. by left.
Qed.

End CatalogueInvariant.

Lemma same_catalogue_state table st st' :
  same_catalogue st st' → catalogue_state table st → catalogue_state table st'.
Proof.
  intros [Hi Hm] [[? ?]|[? ?]]; [left | right]; split; congruence.
Qed.

Lemma touched_catalogue_state table st st' :
  as_is_or_after_Init table st st' →
  catalogue_state table st → catalogue_state table st'.
Proof.
  intros [H|H] Hst; [by apply (same_catalogue_state table st)|].
  apply (same_catalogue_state table (after_Init table st)); [done|].
  rewrite after_Init_catalogue_state by done.
  apply catalogue_state_initialized.
Qed.

Lemma touched_Initialized table st st' :
  as_is_or_after_Init table st st' →
  Initialized st = true → same_catalogue st st'.
Proof.
  intros [H|H] Hi; [done|].
  unfold after_Init in H. by rewrite Hi in H.
Qed.

(** X9.  Once the catalogue is initialized, no operation changes it: [Init],
    [GetElementInfo], [Create] and [CreateFromDecl] all leave the flag set
    and the map as it was, whether they return or abort. *)
Theorem catalogue_frozen_once_initialized
    (table : list ElementEntry)
    (NormalizeType : ClangType → option (ClangType * string))
    (GenericCreate : ClangType → option RSExportType)
    (PrimitiveCreate : ClangType → string → bool → RSExportPrimitiveType)
    (VectorCreate : ClangType → string → bool → RSExportVectorType)
    (st : State) :
  Initialized st = true →
  same_catalogue st (final_state (Init table st))
  ∧ (∀ Name, same_catalogue st (final_state (GetElementInfo table Name st)))
  ∧ (∀ T EI,
       same_catalogue st
         (final_state (Create table NormalizeType PrimitiveCreate
                              VectorCreate T EI st)))
  ∧ (∀ DD,
       same_catalogue st
         (final_state (CreateFromDecl table NormalizeType GenericCreate
                                      PrimitiveCreate VectorCreate DD st))).
Proof.
  intros Hi. split; [|split; [|split]].
  - apply (touched_Initialized table); [apply Init_touched | done].
  - intros Name. apply (touched_Initialized table); [apply GetElementInfo_touched | done].
  - intros T EI. apply (touched_Initialized table); [apply Create_touched | done].
  - intros DD. apply (touched_Initialized table); [apply CreateFromDecl_touched | done].
Qed.

Lemma catalogue_frozen_once_initialized_witness :
  let st := initialized Sample.table initial_state in
  Initialized st = true
  ∧ same_catalogue st
      (final_state
         (Sample.CreateFromDecl
            (mkDecl "v" (TypedefType "rs_uchar" Sample.uchar)) st)).
Proof.
  intros st. split; [reflexivity|].
  apply (catalogue_frozen_once_initialized Sample.table Sample.NormalizeType
           Sample.RSExportType_Create Sample.RSExportPrimitiveType_Create
           Sample.RSExportVectorType_Create st).
  reflexivity.
Defined.

(** X10.  The states in which the static members are untouched, or hold the
    catalogue built from the table, are closed under every operation:
    whatever sequence of [Init], [GetElementInfo], [Create] and
    [CreateFromDecl] runs, from the start of the program on, the catalogue is
    either not built yet or is the one built from the table. *)
Theorem catalogue_state_preserved
    (table : list ElementEntry)
    (NormalizeType : ClangType → option (ClangType * string))
    (GenericCreate : ClangType → option RSExportType)
    (PrimitiveCreate : ClangType → string → bool → RSExportPrimitiveType)
    (VectorCreate : ClangType → string → bool → RSExportVectorType)
    (st : State) :
  catalogue_state table st →
  catalogue_state table (final_state (Init table st))
  ∧ (∀ Name,
       catalogue_state table (final_state (GetElementInfo table Name st)))
  ∧ (∀ T EI,
       catalogue_state table
         (final_state (Create table NormalizeType PrimitiveCreate
                              VectorCreate T EI st)))
  ∧ (∀ DD,
       catalogue_state table
         (final_state (CreateFromDecl table NormalizeType GenericCreate
                                      PrimitiveCreate VectorCreate DD st))).
Proof.
  intros Hst. split; [|split; [|split]].
  - apply (touched_catalogue_state table st); [apply Init_touched | done].
  - intros Name.
    apply (touched_catalogue_state table st); [apply GetElementInfo_touched | done].
  - intros T EI. apply (touched_catalogue_state table st); [apply Create_touched | done].
  - intros DD.
    apply (touched_catalogue_state table st); [apply CreateFromDecl_touched | done].
Qed.

Lemma catalogue_state_preserved_witness :
  catalogue_state Sample.table initial_state
  ∧ catalogue_state Sample.table
      (final_state
         (Sample.CreateFromDecl
            (mkDecl "v" (TypedefType "rs_uchar" Sample.uchar)) initial_state)).
Proof.
  assert (catalogue_state Sample.table initial_state) as Hst
    by (left; split; reflexivity).
  split; [exact Hst|].
  by apply (catalogue_state_preserved Sample.table Sample.NormalizeType
              Sample.RSExportType_Create Sample.RSExportPrimitiveType_Create
              Sample.RSExportVectorType_Create initial_state).
Defined.

(** X11.  [GetElementInfo] matches names exactly.  In any state the program
    can be in, it returns [NULL] exactly for the names that are on no line
    of the table, and a descriptor it returns is that of a line of the table
    with that very name. *)
Theorem GetElementInfo_exact_name
    (table : list ElementEntry) (Name : string) (st : State) :
  catalogue_state table st →
  ∃ EI st',
    GetElementInfo table Name st = Returns EI st'
    ∧ (EI = None ↔ Name ∉ entry_name <$> table)
    ∧ (∀ info, EI = Some info →
         ∃ e, e ∈ table ∧ entry_name e = Name ∧ entry_info e = info).
Proof.
  intros Hst. exists (first_entry table Name), (initialized table st).
  split; [by apply GetElementInfo_catalogue_state|]. split.
  - rewrite <- first_entry_is_Some.
    destruct (first_entry table Name) as [info|]; split; intros H.
    + discriminate.
    + exfalso. apply H. by eexists.
    + by intros [? ?].
    + done.
  - intros info. apply first_entry_in_table.
Qed.

Lemma GetElementInfo_exact_name_witness :
  catalogue_state Sample.table initial_state
  ∧ ∃ EI st',
      GetElementInfo Sample.table "rs_uchar3" initial_state = Returns EI st'
      ∧ (EI = None ↔ "rs_uchar3" ∉ entry_name <$> Sample.table)
      ∧ (∀ info, EI = Some info →
           ∃ e, e ∈ Sample.table ∧ entry_name e = "rs_uchar3"
                ∧ entry_info e = info).
Proof.
  assert (catalogue_state Sample.table initial_state) as Hst
    by (left; split; reflexivity).
  split; [exact Hst|].
  exact (GetElementInfo_exact_name Sample.table "rs_uchar3" initial_state Hst).
Defined.

(** A name that differs from a catalogue name in its last character, or in
    the case of a letter, is not found. *)
Example GetElementInfo_near_names :
  observable (GetElementInfo Sample.table "rs_uchar" initial_state)
  = inl (Some Sample.rs_uchar_info)
  ∧ observable (GetElementInfo Sample.table "rs_ucha" initial_state) = inl None
  ∧ observable (GetElementInfo Sample.table "RS_UCHAR" initial_state)
    = inl None.
Proof. vm_compute. done. Qed.

(* --------------------------------------------------------------------- *)
(** * [Create]: further properties                                        *)
(* --------------------------------------------------------------------- *)

(** X12.  The calls [Create] makes to its collaborators.  Without a
    descriptor it makes none.  With one, the normalizer is called first, on
    the node given, and after it at most one builder, the primitive or the
    vector one, with the normalized flag of the descriptor; the generic
    builder is never called. *)
Theorem Create_call_protocol
    (table : list ElementEntry)
    (NormalizeType : ClangType → option (ClangType * string))
    (PrimitiveCreate : ClangType → string → bool → RSExportPrimitiveType)
    (VectorCreate : ClangType → string → bool → RSExportVectorType)
    (T : ClangType) (EI : option ElementInfo) (st : State) :
  ∃ more,
    calls (final_state (Create table NormalizeType PrimitiveCreate
                               VectorCreate T EI st))
    = calls st ++ more
    ∧ match EI with
      | None => more = []
      | Some info =>
          more = [CallNormalizeType T]
          ∨ (∃ T' TypeName,
               NormalizeType T = Some (T', TypeName)
               ∧ (more = [CallNormalizeType T;
                          CallPrimitiveTypeCreate T' TypeName
                                                  (normalized info)]
                  ∨ more = [CallNormalizeType T;
                            CallVectorTypeCreate (GET_CANONICAL_TYPE T')
                              TypeName (normalized info)]))
      end.
Proof.
  destruct EI as [info|].
  2: { exists []. rewrite Create_None. simpl.
       by rewrite after_Init_calls, app_nil_r. }
  rewrite Create_Some.
  destruct (NormalizeType T) as [[T' TypeName]|] eqn:Hnorm.
  2: { exists [CallNormalizeType T]. simpl. rewrite after_Init_calls.
       split; [done | by left]. }
  unfold Create_switch, call_RSExportPrimitiveType_Create,
    call_RSExportVectorType_Create, slangAssert.
  destruct (getTypeClass T'); run_monad;
    repeat (case_bool_decide; simpl); rewrite ?after_Init_calls;
    rewrite <- ?app_assoc; simpl;
    eexists; (split; [reflexivity|]);
    first [ by left | right; exists T', TypeName; split; [done|]; by left
          | right; exists T', TypeName; split; [done|]; by right ].
Qed.

(** X13.  When the node [Create] switches on is of builtin or pointer class
    and the descriptor has vector width 1, the primitive builder is called on
    that node; the export type it builds is returned when its data type is
    that of the descriptor, and otherwise the process is aborted. *)
Theorem Create_primitive
    (table : list ElementEntry)
    (NormalizeType : ClangType → option (ClangType * string))
    (PrimitiveCreate : ClangType → string → bool → RSExportPrimitiveType)
    (VectorCreate : ClangType → string → bool → RSExportVectorType)
    (T T' : ClangType) (TypeName : string) (EI : ElementInfo) (st : State) :
  NormalizeType T = Some (T', TypeName) →
  getTypeClass T' = Builtin ∨ getTypeClass T' = Pointer →
  vsize EI = 1%N →
  let run :=
    Create table NormalizeType PrimitiveCreate VectorCreate T (Some EI) st in
  let EPT := PrimitiveCreate T' TypeName (normalized EI) in
  let st' :=
    add_call (CallPrimitiveTypeCreate T' TypeName (normalized EI))
      (add_call (CallNormalizeType T) (after_Init table st)) in
  (ept_getType EPT = type EI →
     run = Returns (Some (ExportPrimitive EPT)) st')
  ∧ (ept_getType EPT ≠ type EI →
     run = Aborts "Element has unexpected type" st').
Proof.
  intros Hnorm Hclass Hwidth run EPT st'.
  assert (run =
    if bool_decide (type EI = ept_getType EPT)
    then Returns (Some (ExportPrimitive EPT)) st'
    else Aborts "Element has unexpected type" st') as Hrun.
  { subst run. rewrite Create_Some, Hnorm. unfold Create_switch.
    assert (bool_decide (vsize EI = 1%N) = true) as Hb
      by (by apply bool_decide_eq_true_2).
    unfold call_RSExportPrimitiveType_Create, slangAssert.
    destruct Hclass as [-> | ->]; rewrite Hb; run_monad;
      fold EPT; fold st';
      by destruct (bool_decide (type EI = ept_getType EPT)). }
  rewrite Hrun. split; intros H.
  - by rewrite bool_decide_eq_true_2.
  - by rewrite bool_decide_eq_false_2.
Qed.

Lemma Create_primitive_witness :
  Sample.NormalizeType (TypedefType "rs_uchar" Sample.uchar)
  = Some (Sample.uchar, "unsigned char")
  ∧ vsize Sample.rs_uchar_info = 1%N
  ∧ Sample.Create (TypedefType "rs_uchar" Sample.uchar)
      (Some Sample.rs_uchar_info) initial_state
    = Returns
        (Some (ExportPrimitive
                 (mkPrimitive "unsigned char" Sample.DataTypeUnsigned8 true)))
        (mkState true Sample.built []
           [CallNormalizeType (TypedefType "rs_uchar" Sample.uchar);
            CallPrimitiveTypeCreate Sample.uchar "unsigned char" true]).
Proof.
  split; [reflexivity|]. split; [reflexivity|].
  apply (Create_primitive Sample.table Sample.NormalizeType
           Sample.RSExportPrimitiveType_Create
           Sample.RSExportVectorType_Create
           (TypedefType "rs_uchar" Sample.uchar) Sample.uchar "unsigned char"
           Sample.rs_uchar_info initial_state);
    [reflexivity | left; reflexivity | reflexivity | reflexivity].
Defined.

(** X14.  When the node [Create] switches on is of [ExtVector] class and the
    descriptor has vector width 0 or 1, the first assertion of that case
    fails: the process is aborted before the vector builder is called. *)
Theorem Create_vector_with_scalar_width
    (table : list ElementEntry)
    (NormalizeType : ClangType → option (ClangType * string))
    (PrimitiveCreate : ClangType → string → bool → RSExportPrimitiveType)
    (VectorCreate : ClangType → string → bool → RSExportVectorType)
    (T T' : ClangType) (TypeName : string) (EI : ElementInfo) (st : State) :
  NormalizeType T = Some (T', TypeName) →
  getTypeClass T' = ExtVector →
  (vsize EI ≤ 1)%N →
  Create table NormalizeType PrimitiveCreate VectorCreate T (Some EI) st
  = Aborts "Element not a vector class (please check your macro)"
           (add_call (CallNormalizeType T) (after_Init table st)).
Proof.
  intros Hnorm Hclass Hwidth.
  rewrite Create_Some, Hnorm. unfold Create_switch. rewrite Hclass.
  erewrite bind_Aborts; [reflexivity|].
  by rewrite bool_decide_eq_false_2 by lia.
Qed.

Lemma Create_vector_with_scalar_width_witness :
  Sample.NormalizeType Sample.uchar4
  = Some (Sample.uchar4, "unsigned char vector")
  ∧ (vsize Sample.rs_uchar_info ≤ 1)%N
  ∧ Sample.Create Sample.uchar4 (Some Sample.rs_uchar_info) initial_state
    = Aborts "Element not a vector class (please check your macro)"
        (mkState true Sample.built [] [CallNormalizeType Sample.uchar4]).
Proof.
  split; [reflexivity|]. split; [discriminate|].
  apply (Create_vector_with_scalar_width Sample.table Sample.NormalizeType
           Sample.RSExportPrimitiveType_Create
           Sample.RSExportVectorType_Create
           Sample.uchar4 Sample.uchar4 "unsigned char vector"
           Sample.rs_uchar_info initial_state);
    [reflexivity | reflexivity | discriminate].
Defined.

Section CreateObservable.

Variable table : list ElementEntry.
Variable NormalizeType : ClangType → option (ClangType * string).
Variable RSExportPrimitiveType_Create :
  ClangType → string → bool → RSExportPrimitiveType.
Variable RSExportVectorType_Create :
  ClangType → string → bool → RSExportVectorType.

Local Abbreviation create :=
  (Create table NormalizeType
          RSExportPrimitiveType_Create RSExportVectorType_Create).
Local Abbreviation create_switch :=
  (Create_switch RSExportPrimitiveType_Create RSExportVectorType_Create).

(** What the switch returns, or the assertion that stops it, does not depend
    on the state. *)
Lemma Create_switch_observable T TypeName EI st1 st2 :
  observable (create_switch T TypeName EI st1)
  = observable (create_switch T TypeName EI st2).
Proof.
  unfold Create_switch, call_RSExportPrimitiveType_Create,
    call_RSExportVectorType_Create, slangAssert.
  destruct (getTypeClass T); run_monad;
    repeat (case_bool_decide; simpl); done.
Qed.

Lemma Create_observable T EI st1 st2 :
  observable (create T EI st1) = observable (create T EI st2).
Proof.
  destruct EI as [EI|]; [|by rewrite !Create_None].
  rewrite !Create_Some.
  destruct (NormalizeType T) as [[T' TypeName]|]; [|done].
  apply Create_switch_observable.
Qed.

(** What the switch returns when it returns an export type. *)
Lemma Create_switch_returns T TypeName EI st ET st' :
  create_switch T TypeName EI st = Returns (Some ET) st' →
  stderr st' = stderr st
  ∧ ((ET = ExportPrimitive
             (RSExportPrimitiveType_Create T TypeName (normalized EI))
      ∧ (getTypeClass T = Builtin ∨ getTypeClass T = Pointer)
      ∧ vsize EI = 1%N
      ∧ ept_getType (RSExportPrimitiveType_Create T TypeName (normalized EI))
        = type EI)
     ∨ (ET = ExportVector
               (RSExportVectorType_Create (GET_CANONICAL_TYPE T) TypeName
                                          (normalized EI))
        ∧ getTypeClass T = ExtVector
        ∧ (1 < vsize EI)%N
        ∧ evt_getType (RSExportVectorType_Create (GET_CANONICAL_TYPE T)
                         TypeName (normalized EI)) = type EI
        ∧ evt_getNumElement (RSExportVectorType_Create (GET_CANONICAL_TYPE T)
                               TypeName (normalized EI)) = vsize EI)).
Proof.
  unfold Create_switch, call_RSExportPrimitiveType_Create,
    call_RSExportVectorType_Create, slangAssert.
  destruct (getTypeClass T) eqn:Hclass; run_monad;
    repeat (case_bool_decide; simpl); try done;
    intros [= <- <-]; (split; [done|]).
  - left. eauto.
  - left. eauto.
  - right. eauto.
Qed.

End CreateObservable.

(** X15.  What [Create] can return.  An export type returned by [Create] is
    the primitive one built for a node of builtin or pointer class under a
    descriptor of width 1, or the vector one built for a node of [ExtVector]
    class under a descriptor of width above 1; in both cases its data type,
    and for a vector its number of elements, are those of the descriptor.
    Nothing was written to [stderr]. *)
Theorem Create_result_shape
    (table : list ElementEntry)
    (NormalizeType : ClangType → option (ClangType * string))
    (PrimitiveCreate : ClangType → string → bool → RSExportPrimitiveType)
    (VectorCreate : ClangType → string → bool → RSExportVectorType)
    (T : ClangType) (EI : option ElementInfo) (st : State)
    (ET : RSExportType) (st' : State) :
  Create table NormalizeType PrimitiveCreate VectorCreate T EI st
  = Returns (Some ET) st' →
  ∃ info T' TypeName,
    EI = Some info
    ∧ NormalizeType T = Some (T', TypeName)
    ∧ stderr st' = stderr st
    ∧ ((∃ EPT, ET = ExportPrimitive EPT
               ∧ (getTypeClass T' = Builtin ∨ getTypeClass T' = Pointer)
               ∧ vsize info = 1%N
               ∧ ept_getType EPT = type info)
       ∨ (∃ EVT, ET = ExportVector EVT
                 ∧ getTypeClass T' = ExtVector
                 ∧ (1 < vsize info)%N
                 ∧ evt_getType EVT = type info
                 ∧ evt_getNumElement EVT = vsize info)).
Proof.
  destruct EI as [info|]; [|by rewrite Create_None].
  rewrite Create_Some.
  destruct (NormalizeType T) as [[T' TypeName]|] eqn:Hnorm; [|done].
  intros Hrun. apply Create_switch_returns in Hrun as [Herr Hshape].
  exists info, T', TypeName. split; [done|]. split; [done|].
  split; [rewrite Herr; simpl; apply after_Init_stderr|].
  destruct Hshape as [(-> & ? & ? & ?)|(-> & ? & ? & ? & ?)];
    [left | right]; eauto 10.
Qed.

Lemma Create_result_shape_witness :
  let ET := ExportVector
              (mkVector "unsigned char vector"
                        Sample.DataTypeUnsigned8 true 4) in
  let st' := mkState true Sample.built []
               [CallNormalizeType Sample.uchar4;
                CallVectorTypeCreate Sample.uchar4 "unsigned char vector"
                                     true] in
  Sample.Create Sample.uchar4 (Some Sample.rs_uchar4_info) initial_state
  = Returns (Some ET) st'
  ∧ ∃ info T' TypeName,
      Some Sample.rs_uchar4_info = Some info
      ∧ Sample.NormalizeType Sample.uchar4 = Some (T', TypeName)
      ∧ stderr st' = stderr initial_state
      ∧ ((∃ EPT, ET = ExportPrimitive EPT
                 ∧ (getTypeClass T' = Builtin ∨ getTypeClass T' = Pointer)
                 ∧ vsize info = 1%N
                 ∧ ept_getType EPT = type info)
         ∨ (∃ EVT, ET = ExportVector EVT
                   ∧ getTypeClass T' = ExtVector
                   ∧ (1 < vsize info)%N
                   ∧ evt_getType EVT = type info
                   ∧ evt_getNumElement EVT = vsize info)).
Proof.
  intros ET st'.
  assert (Sample.Create Sample.uchar4 (Some Sample.rs_uchar4_info)
            initial_state = Returns (Some ET) st') as Hrun
    by (vm_compute; reflexivity).
  split; [exact Hrun|].
  exact (Create_result_shape Sample.table Sample.NormalizeType
           Sample.RSExportPrimitiveType_Create
           Sample.RSExportVectorType_Create
           Sample.uchar4 (Some Sample.rs_uchar4_info) initial_state
           ET st' Hrun).
Defined.

(* --------------------------------------------------------------------- *)
(** * [CreateFromDecl]: further properties                                *)
(* --------------------------------------------------------------------- *)

(** The loop computes [walk_result]. *)
Lemma typedef_chain_walk_result table T0 T st :
  catalogue_state table st →
  typedef_chain table (GET_CANONICAL_TYPE T0) T st
  = Returns (walk_result table T) (after_walk table T st).
Proof.
  revert st.
  induction T as [k|P _|E _ n|Name U IH|n|E _ n]; intros st Hst; simpl;
    try (by case_bool_decide).
  rewrite bool_decide_eq_true_2 by apply alias_not_canonical.
  erewrite bind_Returns by by apply GetElementInfo_catalogue_state.
  destruct (first_entry table Name) as [EI|]; [done|].
  rewrite IH by apply catalogue_state_initialized.
  f_equal. by destruct U.
Qed.

Lemma walk_result_Some table T L EI :
  walk_result table T = (L, Some EI) →
  L ∈ alias_layers T
  ∧ ∃ Name, alias_name L = Some Name ∧ first_entry table Name = Some EI.
Proof.
  induction T as [k|P _|E _ n|Name U IH|n|E _ n]; simpl; try done.
  destruct (first_entry table Name) as [EI'|] eqn:Hentry.
  - intros [= <- <-]. split; [left|]. by exists Name.
  - intros H. destruct (IH H) as [Hin Hname]. split; [by right | done].
Qed.

Lemma walk_result_None table T T' :
  walk_result table T = (T', None) →
  T' = strip_aliases T ∧ none_registered table (alias_layers T) = true.
Proof.
  induction T as [k|P _|E _ n|Name U IH|n|E _ n]; simpl;
    try (by intros [= <-]).
  destruct (first_entry table Name) as [EI'|] eqn:Hentry; [done|].
  intros H. destruct (IH H) as [-> Hnone]. split; [done|].
  unfold none_registered in *. simpl. rewrite Hnone.
  unfold registered. simpl. rewrite Hentry.
  by rewrite bool_decide_eq_false_2 by (by intros [? ?]).
Qed.

(** X16.  A declared type whose canonical form is a pointer is never
    resolved against the catalogue: [CreateFromDecl] returns what the generic
    builder returns for the declared type node, in any state and whatever
    names its alias layers declare, and leaves the static members alone. *)
Theorem CreateFromDecl_pointer_class
    (table : list ElementEntry)
    (NormalizeType : ClangType → option (ClangType * string))
    (GenericCreate : ClangType → option RSExportType)
    (PrimitiveCreate : ClangType → string → bool → RSExportPrimitiveType)
    (VectorCreate : ClangType → string → bool → RSExportVectorType)
    (DD : DeclaratorDecl) (st : State) :
  getTypeClass (GET_CANONICAL_TYPE (GetTypeOfDecl DD)) = Pointer →
  CreateFromDecl table NormalizeType GenericCreate
    PrimitiveCreate VectorCreate DD st
  = Returns (GenericCreate (GetTypeOfDecl DD))
            (add_call (CallExportTypeCreate (GetTypeOfDecl DD)) st).
Proof.
  intros Hp. apply CreateFromDecl_early_return; by rewrite Hp.
Qed.

Lemma CreateFromDecl_pointer_class_witness :
  let T := TypedefType "rs_uchar" (PointerType Sample.uchar) in
  getTypeClass (GET_CANONICAL_TYPE T) = Pointer
  ∧ registered Sample.table T = true
  ∧ Sample.CreateFromDecl (mkDecl "v" T) initial_state
    = Returns (Some (ExportOther "unsigned char*"))
              (mkState false ∅ [] [CallExportTypeCreate T]).
Proof.
  intros T. split; [reflexivity|]. split; [reflexivity|].
  apply (CreateFromDecl_pointer_class Sample.table Sample.NormalizeType
           Sample.RSExportType_Create Sample.RSExportPrimitiveType_Create
           Sample.RSExportVectorType_Create (mkDecl "v" T) initial_state).
  reflexivity.
Defined.

(** X17.  [CreateFromDecl] on a declared type whose canonical form is of
    builtin or [ExtVector] class, in full.  The loop ends as [walk_result]
    says: on the outermost alias layer whose name is in the table, and then
    the result is that of [Create] on that layer with the descriptor of the
    name; or, when no layer declares a name of the table, on the node under
    all layers, and then the result is that of the generic builder on that
    node.  The loop itself never aborts. *)
Theorem CreateFromDecl_by_walk_result
    (table : list ElementEntry)
    (NormalizeType : ClangType → option (ClangType * string))
    (GenericCreate : ClangType → option RSExportType)
    (PrimitiveCreate : ClangType → string → bool → RSExportPrimitiveType)
    (VectorCreate : ClangType → string → bool → RSExportVectorType)
    (DD : DeclaratorDecl) (st : State) :
  let T := GetTypeOfDecl DD in
  catalogue_state table st →
  getTypeClass (GET_CANONICAL_TYPE T) = Builtin
  ∨ getTypeClass (GET_CANONICAL_TYPE T) = ExtVector →
  CreateFromDecl table NormalizeType GenericCreate
    PrimitiveCreate VectorCreate DD st
  = match walk_result table T with
    | (L, Some EI) =>
        Create table NormalizeType PrimitiveCreate VectorCreate
          L (Some EI) (initialized table st)
    | (T', None) =>
        Returns (GenericCreate T')
                (add_call (CallExportTypeCreate T') (after_walk table T st))
    end
  ∧ (∀ L EI, walk_result table T = (L, Some EI) →
       L ∈ alias_layers T
       ∧ ∃ Name, alias_name L = Some Name ∧ first_entry table Name = Some EI)
  ∧ (∀ T', walk_result table T = (T', None) →
       T' = strip_aliases T ∧ none_registered table (alias_layers T) = true).
Proof.
  intros T Hst Hclass. subst T.
  split; [|split; [apply walk_result_Some | apply walk_result_None]].
  rewrite CreateFromDecl_walk by done.
  rewrite (typedef_chain_walk_result table _ _ st Hst).
  destruct (walk_result table (GetTypeOfDecl DD)) as [L [EI|]] eqn:Hwalk;
    [|done].
  apply walk_result_Some in Hwalk as [Hin _].
  destruct (GetTypeOfDecl DD); simpl in *; try (by apply elem_of_nil in Hin).
  done.
Qed.

Lemma CreateFromDecl_by_walk_result_witness :
  let T := TypedefType "my_pixel" (TypedefType "rs_uchar" Sample.uchar) in
  catalogue_state Sample.table initial_state
  ∧ walk_result Sample.table T
    = (TypedefType "rs_uchar" Sample.uchar, Some Sample.rs_uchar_info)
  ∧ Sample.CreateFromDecl (mkDecl "v" T) initial_state
    = Sample.Create (TypedefType "rs_uchar" Sample.uchar)
        (Some Sample.rs_uchar_info) (initialized Sample.table initial_state).
Proof.
  intros T.
  assert (catalogue_state Sample.table initial_state) as Hst
    by (left; split; reflexivity).
  split; [exact Hst|]. split; [reflexivity|].
  apply (CreateFromDecl_by_walk_result Sample.table Sample.NormalizeType
           Sample.RSExportType_Create Sample.RSExportPrimitiveType_Create
           Sample.RSExportVectorType_Create (mkDecl "v" T) initial_state Hst).
  left. reflexivity.
Defined.

(** X18.  What [CreateFromDecl] returns for a declaration, or the assertion
    that stops it, is the same in every state the program can be in: it does
    not depend on whether the catalogue was built before the call, nor on
    what was resolved before.  Resolving a declaration again gives the same
    result. *)
Theorem CreateFromDecl_state_independent
    (table : list ElementEntry)
    (NormalizeType : ClangType → option (ClangType * string))
    (GenericCreate : ClangType → option RSExportType)
    (PrimitiveCreate : ClangType → string → bool → RSExportPrimitiveType)
    (VectorCreate : ClangType → string → bool → RSExportVectorType)
    (DD : DeclaratorDecl) (st1 st2 : State) :
  let resolve := CreateFromDecl table NormalizeType GenericCreate
                   PrimitiveCreate VectorCreate in
  catalogue_state table st1 →
  catalogue_state table st2 →
  observable (resolve DD st1) = observable (resolve DD st2)
  ∧ observable (resolve DD (final_state (resolve DD st1)))
    = observable (resolve DD st1).
Proof.
  intros resolve Hst1 Hst2.
  assert (∀ sa sb, catalogue_state table sa → catalogue_state table sb →
            observable (resolve DD sa) = observable (resolve DD sb)) as Hind.
  { intros sa sb Ha Hb. subst resolve.
    destruct (decide (getTypeClass (GET_CANONICAL_TYPE (GetTypeOfDecl DD))
                      = Builtin
                      ∨ getTypeClass (GET_CANONICAL_TYPE (GetTypeOfDecl DD))
                        = ExtVector)) as [Hclass|Hclass].
    - rewrite !CreateFromDecl_walk by done.
      rewrite (typedef_chain_walk_result table _ _ sa Ha).
      rewrite (typedef_chain_walk_result table _ _ sb Hb).
      destruct (walk_result table (GetTypeOfDecl DD)) as [L [EI|]]; [|done].
      apply Create_observable.
    - rewrite !CreateFromDecl_early_return by tauto. done. }
  split; [by apply Hind|].
  apply Hind; [|done].
  apply (touched_catalogue_state table st1); [|done].
  apply CreateFromDecl_touched.
Qed.

Lemma CreateFromDecl_state_independent_witness :
  let DD := mkDecl "v" (TypedefType "rs_uchar4" Sample.uchar4) in
  let st2 := final_state (Sample.CreateFromDecl DD initial_state) in
  catalogue_state Sample.table initial_state
  ∧ catalogue_state Sample.table st2
  ∧ observable (Sample.CreateFromDecl DD initial_state)
    = observable (Sample.CreateFromDecl DD st2).
Proof.
  intros DD st2.
  assert (catalogue_state Sample.table initial_state) as H1
    by (left; split; reflexivity).
  assert (catalogue_state Sample.table st2) as H2
    by (right; split; reflexivity).
  split; [exact H1|]. split; [exact H2|].
  apply (CreateFromDecl_state_independent Sample.table Sample.NormalizeType
           Sample.RSExportType_Create Sample.RSExportPrimitiveType_Create
           Sample.RSExportVectorType_Create DD initial_state st2 H1 H2).
Defined.

(** X19.  Elements are recognised by name only.  A declared type that is not
    an alias, whatever its class (a bare [unsigned char], a bare vector of
    four), goes to the generic builder on the declared type node, in any
    state, and the catalogue is not consulted. *)
Theorem CreateFromDecl_not_an_alias
    (table : list ElementEntry)
    (NormalizeType : ClangType → option (ClangType * string))
    (GenericCreate : ClangType → option RSExportType)
    (PrimitiveCreate : ClangType → string → bool → RSExportPrimitiveType)
    (VectorCreate : ClangType → string → bool → RSExportVectorType)
    (DD : DeclaratorDecl) (st : State) :
  getTypeClass (GetTypeOfDecl DD) ≠ Typedef →
  CreateFromDecl table NormalizeType GenericCreate
    PrimitiveCreate VectorCreate DD st
  = Returns (GenericCreate (GetTypeOfDecl DD))
            (add_call (CallExportTypeCreate (GetTypeOfDecl DD)) st).
Proof.
  intros Hna. unfold CreateFromDecl.
  destruct (bool_decide _ && bool_decide _); [done|].
  assert (typedef_chain table (GET_CANONICAL_TYPE (GetTypeOfDecl DD))
            (GetTypeOfDecl DD) st
          = Returns (GetTypeOfDecl DD, None) st) as Hwalk.
  { destruct (GetTypeOfDecl DD); simpl in *; try done; by case_bool_decide. }
  by erewrite bind_Returns by exact Hwalk.
Qed.

Lemma CreateFromDecl_not_an_alias_witness :
  getTypeClass Sample.uchar4 ≠ Typedef
  ∧ Sample.CreateFromDecl (mkDecl "v" Sample.uchar4) initial_state
    = Returns (Some (ExportOther "unsigned char vector"))
              (mkState false ∅ [] [CallExportTypeCreate Sample.uchar4]).
Proof.
  split; [discriminate|].
  apply (CreateFromDecl_not_an_alias Sample.table Sample.NormalizeType
           Sample.RSExportType_Create Sample.RSExportPrimitiveType_Create
           Sample.RSExportVectorType_Create
           (mkDecl "v" Sample.uchar4) initial_state).
  discriminate.
Defined.
